(** * Farkle backend: the CRUD layer of [backend/crud.py] over the ORM models
    of [backend/models.py], embedded as state-passing functions.

    The relational store is four tables kept as lists in insertion order.
    A SQLAlchemy [Session] is the committed store together with the list of
    pending instances ([Session.new]); [autoflush] is off in
    [backend/database.py], so pending instances are invisible to [db.get]
    and [db.query] until [db.commit].  [get_db] closes the session when the
    request ends, which discards whatever was added but never committed.

    Integers are Python integers ([Z]); the bound of the SQL integer
    columns is not modelled.  The value of SQL [AVG] and the Python [float]
    made from it are kept as exact rationals ([Q]).  A query without
    ORDER BY returns its groups in the order of their first joined row,
    which is the order of [player_profiles]; SQL leaves that order open.
    [uuid.uuid4()] and [datetime.utcnow()] read from the [World]; an id
    that is already a primary key is refused by [db.commit] with
    [IntegrityError]. *)

From Stdlib Require Import List String Ascii ZArith QArith Bool Lia Arith.
From Stdlib Require Import Permutation Sorted.
Import ListNotations.

Open Scope string_scope.
Open Scope Z_scope.

(* ================================================================== *)
(** ** models.py *)

Module User.
Record t := mk
  { user_id : string; login_type : string; created_at : Z }.
End User.

Module PlayerProfile.
Record t := mk
  { player_id : string; user_id : string; display_name : string;
    created_at : Z }.
End PlayerProfile.

Module Game.
Record t := mk
  { game_id : string; user_id : string; played_at : Z }.
End Game.

Module GameResult.
(** [player_id] is the one nullable column. *)
Record t := mk
  { result_id : string; game_id : string; player_id : option string;
    score : Z; turns_taken : Z; farkles : Z; won : bool }.
End GameResult.

(** ** schemas.py *)

Module GameResultEntry.
Record t := mk
  { player_id : string; score : Z; turns : Z; farkles : Z; won : bool }.
End GameResultEntry.

Module PlayerStatsResponse.
Record t := mk
  { player_id : string; display_name : string; games_played : Z;
    wins : Z; total_points : Z; avg_score : Q; total_farkles : Z;
    high_score : Z }.
End PlayerStatsResponse.

Module PlayerInfoEntry.
Record t := mk
  { player_id : string; display_name : string; wins : Z; avg_score : Q;
    total_points : Z }.
End PlayerInfoEntry.

(* ================================================================== *)
(** ** The store, the session and the request monad *)

Record Store := mkStore
  { users : list User.t;
    player_profiles : list PlayerProfile.t;
    games : list Game.t;
    game_results : list GameResult.t }.

Definition empty_store : Store := mkStore [] [] [] [].

(** An instance handed to [db.add] and not yet flushed.  [User] and
    [PlayerProfile] get their [created_at] column default when they are
    inserted. *)
Inductive Instance :=
| NewUser (user_id login_type : string)
| NewPlayerProfile (player_id user_id display_name : string)
| NewGame (g : Game.t)
| NewGameResult (r : GameResult.t).

Record Session := mkSession
  { committed : Store; new : list Instance }.

(** What an operation can see and change: the session, the sequence of
    values [uuid.uuid4()] is going to return with the number of calls made
    so far, and the reading of [datetime.utcnow()]. *)
Record World := mkWorld
  { db : Session; uuid_source : nat -> string; uuid_calls : nat;
    utcnow : Z }.

Inductive Exception :=
| HTTPException (status_code : Z) (detail : string)
| AttributeError (message : string)
| IntegrityError
| InvalidRequestError.

Inductive Result (A : Type) :=
| Ok (a : A)
| Raise (e : Exception).
Arguments Ok {A} a.
Arguments Raise {A} e.

Definition M (A : Type) : Type := World -> Result A * World.

Definition ret {A} (a : A) : M A := fun w => (Ok a, w).

Definition raise {A} (e : Exception) : M A := fun w => (Raise e, w).

Definition bind {A B} (m : M A) (k : A -> M B) : M B :=
  fun w =>
    match m w with
    | (Ok a, w') => k a w'
    | (Raise e, w') => (Raise e, w')
    end.

Notation "x <- m ;; k" := (bind m (fun x => k))
  (at level 61, m at next level, right associativity).
Notation "m ;;; k" := (bind m (fun _ => k))
  (at level 61, right associativity).

Definition with_db (f : Session -> Session) : M unit :=
  fun w => (Ok tt, mkWorld (f (db w)) (uuid_source w) (uuid_calls w) (utcnow w)).

Definition read_store : M Store := fun w => (Ok (committed (db w)), w).

Definition datetime_utcnow : M Z := fun w => (Ok (utcnow w), w).

(** [str(uuid.uuid4())] *)
Definition uuid4 : M string :=
  fun w =>
    (Ok (uuid_source w (uuid_calls w)),
     mkWorld (db w) (uuid_source w) (S (uuid_calls w)) (utcnow w)).

(** *** Primary-key lookups: [db.get(Model, key)] *)

Definition find_user (uid : string) (s : Store) : option User.t :=
  find (fun u => String.eqb (User.user_id u) uid) (users s).

Definition find_player (pid : string) (s : Store) : option PlayerProfile.t :=
  find (fun p => String.eqb (PlayerProfile.player_id p) pid)
       (player_profiles s).

Definition find_game (gid : string) (s : Store) : option Game.t :=
  find (fun g => String.eqb (Game.game_id g) gid) (games s).

Definition find_result (rid : string) (s : Store) : option GameResult.t :=
  find (fun r => String.eqb (GameResult.result_id r) rid) (game_results s).

Definition db_get_User (uid : string) : M (option User.t) :=
  s <- read_store ;; ret (find_user uid s).

Definition db_get_PlayerProfile (pid : string) : M (option PlayerProfile.t) :=
  s <- read_store ;; ret (find_player pid s).

(** *** [db.add], [db.commit], [db.refresh] *)

Definition db_add (o : Instance) : M unit :=
  with_db (fun d => mkSession (committed d) (new d ++ [o])).

(** One INSERT.  Each table has its primary key; a second row with the
    same key is refused. *)
Definition insert (now : Z) (o : Instance) (s : Store) : option Store :=
  match o with
  | NewUser uid lt =>
      match find_user uid s with
      | Some _ => None
      | None =>
          Some (mkStore (users s ++ [User.mk uid lt now])
                        (player_profiles s) (games s) (game_results s))
      end
  | NewPlayerProfile pid uid name =>
      match find_player pid s with
      | Some _ => None
      | None =>
          Some (mkStore (users s)
                        (player_profiles s ++ [PlayerProfile.mk pid uid name now])
                        (games s) (game_results s))
      end
  | NewGame g =>
      match find_game (Game.game_id g) s with
      | Some _ => None
      | None =>
          Some (mkStore (users s) (player_profiles s) (games s ++ [g])
                        (game_results s))
      end
  | NewGameResult r =>
      match find_result (GameResult.result_id r) s with
      | Some _ => None
      | None =>
          Some (mkStore (users s) (player_profiles s) (games s)
                        (game_results s ++ [r]))
      end
  end.

Fixpoint flush (now : Z) (pending : list Instance) (s : Store) : option Store :=
  match pending with
  | [] => Some s
  | o :: rest =>
      match insert now o s with
      | Some s' => flush now rest s'
      | None => None
      end
  end.

(** [db.commit()]: every pending instance is inserted, or, when one INSERT
    is refused, the transaction is rolled back and [IntegrityError] raised. *)
Definition db_commit : M unit :=
  fun w =>
    match flush (utcnow w) (new (db w)) (committed (db w)) with
    | Some s' =>
        (Ok tt, mkWorld (mkSession s' []) (uuid_source w) (uuid_calls w) (utcnow w))
    | None =>
        (Raise IntegrityError,
         mkWorld (mkSession (committed (db w)) []) (uuid_source w) (uuid_calls w)
                 (utcnow w))
    end.

(** [db.refresh(obj)] reads the row of [obj] back from the store. *)
Definition db_refresh_User (uid : string) : M User.t :=
  s <- read_store ;;
  match find_user uid s with
  | Some u => ret u
  | None => raise InvalidRequestError
  end.

Definition db_refresh_PlayerProfile (pid : string) : M PlayerProfile.t :=
  s <- read_store ;;
  match find_player pid s with
  | Some p => ret p
  | None => raise InvalidRequestError
  end.

(** *** database.py, [get_db] around an endpoint: a fresh session on the
    store, the operation, then [db.close()], which drops what is pending. *)
Definition request {A} (op : M A) (uuids : nat -> string) (now : Z)
    (s : Store) : Result A * Store :=
  let '(r, w) := op (mkWorld (mkSession s []) uuids 0%nat now) in
  (r, committed (db w)).

(* ================================================================== *)
(** ** crud.py: write operations *)

(** Python truth value of the three kinds of field a result entry has. *)
Class Truthy (A : Type) := truthy : A -> bool.
#[global] Instance Truthy_str : Truthy string :=
  fun s => match s with EmptyString => false | _ => true end.
#[global] Instance Truthy_int : Truthy Z := fun z => negb (z =? 0).
#[global] Instance Truthy_bool : Truthy bool := fun b => b.

(** An element of [results]: a [GameResultEntry] model, as the endpoint
    passes it, or a dict with the same five keys. *)
Inductive ResultItem :=
| Model (e : GameResultEntry.t)
| Dict (e : GameResultEntry.t).

(** [getattr(res, name, None)]: the field of a model; a dict has no such
    attribute and gives the default [None]. *)
Definition getattr_or_None {A} (res : ResultItem)
    (field : GameResultEntry.t -> A) : option A :=
  match res with
  | Model e => Some (field e)
  | Dict _ => None
  end.

(** [res.get(name)]: the value under the key of a dict; a pydantic model
    has no attribute [get]. *)
Definition res_get {A} (res : ResultItem)
    (field : GameResultEntry.t -> A) : M A :=
  match res with
  | Dict e => ret (field e)
  | Model _ =>
      raise (AttributeError "'GameResultEntry' object has no attribute 'get'")
  end.

(** [getattr(res, name, None) or res.get(name)]: the right operand is
    evaluated exactly when the left one is falsy. *)
Definition attr_or_get {A} `{Truthy A} (res : ResultItem)
    (field : GameResultEntry.t -> A) : M A :=
  match getattr_or_None res field with
  | Some v => if truthy v then ret v else res_get res field
  | None => res_get res field
  end.

Definition create_player (user_id display_name : string) : M string :=
  user <- db_get_User user_id ;;
  user <- match user with
          | Some u => ret u
          | None =>
              db_add (NewUser user_id "anonymous") ;;;
              db_commit ;;;
              db_refresh_User user_id
          end ;;
  player_id <- uuid4 ;;
  db_add (NewPlayerProfile player_id (User.user_id user) display_name) ;;;
  db_commit ;;;
  _ <- db_refresh_PlayerProfile player_id ;;
  ret player_id.

(** The body of [for res in results] for a single [res]. *)
Definition add_result (game_id : string) (res : ResultItem) : M unit :=
  player_id <- attr_or_get res GameResultEntry.player_id ;;
  score <- attr_or_get res GameResultEntry.score ;;
  turns <- attr_or_get res GameResultEntry.turns ;;
  farkles <- attr_or_get res GameResultEntry.farkles ;;
  won <- attr_or_get res GameResultEntry.won ;;
  player <- db_get_PlayerProfile player_id ;;
  match player with
  | None =>
      raise (HTTPException 404 ("Player " ++ player_id ++ " not found"))
  | Some _ =>
      result_id <- uuid4 ;;
      db_add (NewGameResult
                (GameResult.mk result_id game_id (Some player_id) score turns
                               farkles won))
  end.

Fixpoint for_each {A} (body : A -> M unit) (l : list A) : M unit :=
  match l with
  | [] => ret tt
  | x :: rest => body x ;;; for_each body rest
  end.

Definition create_game_result (user_id : string) (played_at : option Z)
    (results : list ResultItem) : M string :=
  user <- db_get_User user_id ;;
  match user with
  | None => raise (HTTPException 404 "User not found")
  | Some user =>
      game_id <- uuid4 ;;
      played_at <- match played_at with
                   | Some t => ret t
                   | None => datetime_utcnow
                   end ;;
      db_add (NewGame (Game.mk game_id (User.user_id user) played_at)) ;;;
      for_each (add_result game_id) results ;;;
      db_commit ;;;
      ret game_id
  end.

(* ================================================================== *)
(** ** SQL and Python primitives used by the read operations *)

Definition db_query {A} (q : Store -> A) : M A :=
  s <- read_store ;; ret (q s).

(** The non-NULL values of a column; SQL aggregates skip NULL. *)
Fixpoint non_null {A} (col : list (option A)) : list A :=
  match col with
  | [] => []
  | Some v :: rest => v :: non_null rest
  | None :: rest => non_null rest
  end.

Definition Zsum (l : list Z) : Z := fold_right Z.add 0 l.

Fixpoint Zmaximum (x : Z) (l : list Z) : Z :=
  match l with
  | [] => x
  | y :: rest => Zmaximum (Z.max x y) rest
  end.

(** [COUNT(col)] is a number; [SUM], [AVG] and [MAX] are NULL when no
    non-NULL value was seen. *)
Definition sql_count {A} (col : list (option A)) : Z :=
  Z.of_nat (List.length (non_null col)).

Definition sql_sum (col : list (option Z)) : option Z :=
  match non_null col with
  | [] => None
  | vs => Some (Zsum vs)
  end.

Definition sql_avg (col : list (option Z)) : option Q :=
  match non_null col with
  | [] => None
  | vs => Some (inject_Z (Zsum vs) / inject_Z (Z.of_nat (List.length vs)))%Q
  end.

Definition sql_max (col : list (option Z)) : option Z :=
  match non_null col with
  | [] => None
  | v :: vs => Some (Zmaximum v vs)
  end.

(** [CAST(won AS INTEGER)] *)
Definition cast_Integer (b : bool) : Z := if b then 1 else 0.

#[global] Instance Truthy_float : Truthy Q := fun q => negb (Qeq_bool q 0).

(** [x or d] where [x] is a nullable number. *)
Definition py_or {A} `{Truthy A} (x : option A) (d : A) : A :=
  match x with
  | Some v => if truthy v then v else d
  | None => d
  end.

(** [PlayerProfile.player_id == GameResult.player_id], false on NULL. *)
Definition player_is (pid : string) (r : GameResult.t) : bool :=
  match GameResult.player_id r with
  | Some q => String.eqb pid q
  | None => false
  end.

(** [.join(GameResult, on)]: a row per matching pair. *)
Definition inner_join (ps : list PlayerProfile.t) (rs : list GameResult.t)
    : list (PlayerProfile.t * option GameResult.t) :=
  flat_map
    (fun p =>
       map (fun r => (p, Some r))
           (filter (player_is (PlayerProfile.player_id p)) rs))
    ps.

(** [.join(GameResult, on, isouter=True)]: a profile without a match keeps
    one row whose [GameResult] columns are NULL. *)
Definition outer_join (ps : list PlayerProfile.t) (rs : list GameResult.t)
    : list (PlayerProfile.t * option GameResult.t) :=
  flat_map
    (fun p =>
       match filter (player_is (PlayerProfile.player_id p)) rs with
       | [] => [(p, None)]
       | ms => map (fun r => (p, Some r)) ms
       end)
    ps.

Definition group_key (row : PlayerProfile.t * option GameResult.t)
    : string * string :=
  (PlayerProfile.player_id (fst row), PlayerProfile.display_name (fst row)).

Definition key_eqb (k1 k2 : string * string) : bool :=
  String.eqb (fst k1) (fst k2) && String.eqb (snd k1) (snd k2).

(** The distinct keys of a list, each at its first occurrence. *)
Fixpoint distinct (ks : list (string * string)) : list (string * string) :=
  match ks with
  | [] => []
  | k :: rest => k :: filter (fun k' => negb (key_eqb k' k)) (distinct rest)
  end.

(** [.group_by(PlayerProfile.player_id, PlayerProfile.display_name)]: one
    group per distinct key, holding the joined rows with that key. *)
Definition group_by (rows : list (PlayerProfile.t * option GameResult.t))
    : list ((string * string) * list (PlayerProfile.t * option GameResult.t)) :=
  map (fun k => (k, filter (fun row => key_eqb (group_key row) k) rows))
      (distinct (map group_key rows)).

(** A column of [GameResult] over joined rows. *)
Definition column {A} (f : GameResult.t -> A)
    (rows : list (PlayerProfile.t * option GameResult.t)) : list (option A) :=
  map (fun row => option_map f (snd row)) rows.

(** A row of the two grouped queries. *)
Module Row.
Record t := mk
  { player_id : string; display_name : string; wins : option Z;
    avg_score : option Q; total_points : option Z }.
End Row.

Definition aggregate
    (g : (string * string) * list (PlayerProfile.t * option GameResult.t))
    : Row.t :=
  let '((pid, name), rows) := g in
  Row.mk pid name
    (sql_sum (column (fun r => cast_Integer (GameResult.won r)) rows))
    (sql_avg (column GameResult.score rows))
    (sql_sum (column GameResult.score rows)).

(** The dictionary both list operations build from a row. *)
Definition entry_of_row (row : Row.t) : PlayerInfoEntry.t :=
  PlayerInfoEntry.mk (Row.player_id row) (Row.display_name row)
    (py_or (Row.wins row) 0) (py_or (Row.avg_score row) 0%Q)
    (py_or (Row.total_points row) 0).

(** The [sort] argument; the endpoint admits exactly
    [^(avg_score|wins|total_points)$]. *)
Module Sort.
Inductive key := avg_score | wins | total_points.
End Sort.

(** [getattr(row, sort) or 0] *)
Definition sort_value (sort : Sort.key) (row : Row.t) : Q :=
  match sort with
  | Sort.avg_score => py_or (Row.avg_score row) 0%Q
  | Sort.wins => inject_Z (py_or (Row.wins row) 0)
  | Sort.total_points => inject_Z (py_or (Row.total_points row) 0)
  end.

Definition Qltb (x y : Q) : bool := negb (Qle_bool y x).

(** [sorted(l, key=key, reverse=True)]: the stable sort into descending
    order of the key; rows with equal keys keep their order. *)
Fixpoint insert_desc {A} (key : A -> Q) (x : A) (l : list A) : list A :=
  match l with
  | [] => [x]
  | y :: rest =>
      if Qltb (key x) (key y) then y :: insert_desc key x rest
      else x :: y :: rest
  end.

Fixpoint sorted_reverse {A} (key : A -> Q) (l : list A) : list A :=
  match l with
  | [] => []
  | x :: rest => insert_desc key x (sorted_reverse key rest)
  end.

(** [l[:limit]] *)
Definition slice_to {A} (l : list A) (limit : Z) : list A :=
  if 0 <=? limit then firstn (Z.to_nat limit) l
  else firstn (List.length l - Z.to_nat (- limit)) l.

(* ================================================================== *)
(** ** crud.py: read operations *)

Definition get_player_stats (player_id : string) : M PlayerStatsResponse.t :=
  player <- db_get_PlayerProfile player_id ;;
  match player with
  | None => raise (HTTPException 404 "Player not found")
  | Some player =>
      stats <- db_query (fun s =>
        let rows :=
          filter (fun r =>
                    match GameResult.player_id r with
                    | Some q => String.eqb q player_id
                    | None => false
                    end) (game_results s) in
        (sql_count (map (fun r => Some (GameResult.result_id r)) rows),
         sql_sum (map (fun r => Some (cast_Integer (GameResult.won r))) rows),
         sql_sum (map (fun r => Some (GameResult.score r)) rows),
         sql_avg (map (fun r => Some (GameResult.score r)) rows),
         sql_sum (map (fun r => Some (GameResult.farkles r)) rows),
         sql_max (map (fun r => Some (GameResult.score r)) rows))) ;;
      let '(s_games_played, s_wins, s_total_points, s_avg_score,
            s_total_farkles, s_high_score) := stats in
      let games_played := py_or (Some s_games_played) 0 in
      let avg_score :=
        match s_avg_score with Some a => a | None => 0%Q end in
      ret (PlayerStatsResponse.mk
             (PlayerProfile.player_id player)
             (PlayerProfile.display_name player)
             games_played
             (py_or s_wins 0)
             (py_or s_total_points 0)
             avg_score
             (py_or s_total_farkles 0)
             (py_or s_high_score 0))
  end.

Definition get_leaderboard (sort : Sort.key) (limit : Z)
    : M (list PlayerInfoEntry.t) :=
  aggregation <- db_query (fun s =>
    map aggregate
        (group_by (inner_join (player_profiles s) (game_results s)))) ;;
  let sorted_list :=
    slice_to (sorted_reverse (sort_value sort) aggregation) limit in
  ret (map entry_of_row sorted_list).

Definition get_user_players (user_id : string) : M (list PlayerInfoEntry.t) :=
  user <- db_get_User user_id ;;
  match user with
  | None => raise (HTTPException 404 "User not found")
  | Some _ =>
      results <- db_query (fun s =>
        map aggregate
            (group_by
               (filter (fun row =>
                          String.eqb (PlayerProfile.user_id (fst row)) user_id)
                       (outer_join (player_profiles s) (game_results s))))) ;;
      ret (map entry_of_row results)
  end.

(* ================================================================== *)
(** ** Vocabulary of the statements *)

Definition item_player_id (res : ResultItem) : string :=
  match res with Model e | Dict e => GameResultEntry.player_id e end.

Definition item_entry (res : ResultItem) : GameResultEntry.t :=
  match res with Model e | Dict e => e end.

(** The items on which all five reads of [add_result] return a value. *)
Definition readable (res : ResultItem) : bool :=
  match res with
  | Dict _ => true
  | Model e =>
      truthy (GameResultEntry.player_id e) && truthy (GameResultEntry.score e)
      && truthy (GameResultEntry.turns e) && truthy (GameResultEntry.farkles e)
      && truthy (GameResultEntry.won e)
  end.

Definition no_get : Exception :=
  AttributeError "'GameResultEntry' object has no attribute 'get'".

Definition not_found (pid : string) : Exception :=
  HTTPException 404 ("Player " ++ pid ++ " not found").

(** The [GameResult] row that carries a submitted entry. *)
Definition row_of_entry (result_id game_id : string) (e : GameResultEntry.t)
    : GameResult.t :=
  GameResult.mk result_id game_id (Some (GameResultEntry.player_id e))
    (GameResultEntry.score e) (GameResultEntry.turns e)
    (GameResultEntry.farkles e) (GameResultEntry.won e).

(** The rows of a whole submission, the [n]-th value of [uuid4] going to the
    first of them. *)
Fixpoint result_rows (uuids : nat -> string) (n : nat) (game_id : string)
    (results : list ResultItem) : list GameResult.t :=
  match results with
  | [] => []
  | res :: rest =>
      row_of_entry (uuids n) game_id (item_entry res)
      :: result_rows uuids (S n) game_id rest
  end.

Definition player_exists (s : Store) (pid : string) : bool :=
  match find_player pid s with Some _ => true | None => false end.

Definition user_exists (s : Store) (uid : string) : bool :=
  match find_user uid s with Some _ => true | None => false end.

(** The first player id of the submitted list, in list order, that no
    [PlayerProfile] has. *)
Definition first_unknown (s : Store) (results : list ResultItem)
    : option string :=
  find (fun pid => negb (player_exists s pid)) (map item_player_id results).

(** The [GameResult] rows referencing a player, and the player's figures
    as the specification words them. *)
Definition results_of (s : Store) (pid : string) : list GameResult.t :=
  filter (player_is pid) (game_results s).

Definition wins_of (s : Store) (pid : string) : Z :=
  Zsum (map (fun r => cast_Integer (GameResult.won r)) (results_of s pid)).

Definition points_of (s : Store) (pid : string) : Z :=
  Zsum (map GameResult.score (results_of s pid)).

Definition farkles_of (s : Store) (pid : string) : Z :=
  Zsum (map GameResult.farkles (results_of s pid)).

Definition games_of (s : Store) (pid : string) : Z :=
  Z.of_nat (List.length (results_of s pid)).

(** Arithmetic mean of the scores, 0 without a result. *)
Definition mean_of (s : Store) (pid : string) : Q :=
  match results_of s pid with
  | [] => 0%Q
  | _ => (inject_Z (points_of s pid) / inject_Z (games_of s pid))%Q
  end.

(** [e] is the summary of profile [p]: its id and display name, win count,
    average score and total points. *)
Definition summarises (s : Store) (p : PlayerProfile.t)
    (e : PlayerInfoEntry.t) : Prop :=
  PlayerInfoEntry.player_id e = PlayerProfile.player_id p /\
  PlayerInfoEntry.display_name e = PlayerProfile.display_name p /\
  PlayerInfoEntry.wins e = wins_of s (PlayerProfile.player_id p) /\
  (PlayerInfoEntry.avg_score e == mean_of s (PlayerProfile.player_id p))%Q /\
  PlayerInfoEntry.total_points e = points_of s (PlayerProfile.player_id p).

Definition has_results (s : Store) (p : PlayerProfile.t) : bool :=
  match results_of s (PlayerProfile.player_id p) with
  | [] => false
  | _ => true
  end.

(** The players the leaderboard ranks. *)
Definition qualifying (s : Store) : list PlayerProfile.t :=
  filter (has_results s) (player_profiles s).

Definition owned_by (uid : string) (p : PlayerProfile.t) : bool :=
  String.eqb (PlayerProfile.user_id p) uid.

(** The figure of a summary the leaderboard is sorted by. *)
Definition entry_value (sort : Sort.key) (e : PlayerInfoEntry.t) : Q :=
  match sort with
  | Sort.avg_score => PlayerInfoEntry.avg_score e
  | Sort.wins => inject_Z (PlayerInfoEntry.wins e)
  | Sort.total_points => inject_Z (PlayerInfoEntry.total_points e)
  end.

(** The same figure of a player, from the stored results. *)
Definition player_value (sort : Sort.key) (s : Store) (pid : string) : Q :=
  match sort with
  | Sort.avg_score => mean_of s pid
  | Sort.wins => inject_Z (wins_of s pid)
  | Sort.total_points => inject_Z (points_of s pid)
  end.

(** Primary key of [player_profiles]. *)
Definition unique_player_ids (s : Store) : Prop :=
  NoDup (map PlayerProfile.player_id (player_profiles s)).

(** The non-null player ids among the results of one game. *)
Definition players_of_game (s : Store) (gid : string) : list string :=
  non_null
    (map GameResult.player_id
         (filter (fun r => String.eqb (GameResult.game_id r) gid)
                 (game_results s))).

Definition one_result_per_player (s : Store) : Prop :=
  forall gid, NoDup (players_of_game s gid).

(** Foreign key of [game_results.game_id]. *)
Definition results_reference_games (s : Store) : Prop :=
  forall r, In r (game_results s) ->
            find_game (GameResult.game_id r) s <> None.

(** The two write operations as calls, each with the values [uuid4] and
    [utcnow] give during it. *)
Inductive WriteOp :=
| RegisterPlayer (user_id display_name : string)
| SubmitGameResult (user_id : string) (played_at : option Z)
                   (results : list ResultItem).

Record Call := mkCall
  { call_op : WriteOp; call_uuids : nat -> string; call_now : Z }.

Definition run_call (c : Call) (s : Store) : Result string * Store :=
  match call_op c with
  | RegisterPlayer uid name =>
      request (create_player uid name) (call_uuids c) (call_now c) s
  | SubmitGameResult uid played_at results =>
      request (create_game_result uid played_at results)
              (call_uuids c) (call_now c) s
  end.

Definition run_calls (cs : list Call) (s : Store) : Store :=
  fold_left (fun s c => snd (run_call c s)) cs s.

Definition distinct_players (c : Call) : Prop :=
  match call_op c with
  | RegisterPlayer _ _ => True
  | SubmitGameResult _ _ results => NoDup (map item_player_id results)
  end.

(** *** A small store for the concrete runs: user [u1] with the players
    [pA] (Alice) and [pB] (Bob), then one game between them. *)

Definition ids (n : nat) : string :=
  "id" ++ String (ascii_of_nat (48 + n)) "".

Definition entry (pid : string) (score : Z) (won : bool) : GameResultEntry.t :=
  GameResultEntry.mk pid score 9 2 won.

Definition two_players : Store :=
  snd (request (create_player "u1" "Bob") (fun _ => "pB") 2
         (snd (request (create_player "u1" "Alice") (fun _ => "pA") 1
                       empty_store))).

Definition one_game : Store :=
  snd (request (create_game_result "u1" None
                  [Dict (entry "pA" 9800 true); Dict (entry "pB" 8700 false)])
               ids 3 two_players).

(** *** What a run of [create_game_result] comes to *)

(** The first exception the loop over [results] meets, if any. *)
Fixpoint loop_exception (s : Store) (results : list ResultItem)
    : option Exception :=
  match results with
  | [] => None
  | res :: rest =>
      if readable res then
        if player_exists s (item_player_id res) then loop_exception s rest
        else Some (not_found (item_player_id res))
      else Some no_get
  end.

(** [played_at or datetime.utcnow()]; a datetime is never falsy. *)
Definition played (played_at : option Z) (now : Z) : Z :=
  match played_at with Some t => t | None => now end.

(** The calls that build [one_game] from the empty store. *)
Definition sample_calls : list Call :=
  [ mkCall (RegisterPlayer "u1" "Alice") (fun _ => "pA") 1;
    mkCall (RegisterPlayer "u1" "Bob") (fun _ => "pB") 2;
    mkCall (SubmitGameResult "u1" None
              [Dict (entry "pA" 9800 true); Dict (entry "pB" 8700 false)])
           ids 3 ].

(** *** The joined rows of one profile *)

Definition profile_key (p : PlayerProfile.t) : string * string :=
  (PlayerProfile.player_id p, PlayerProfile.display_name p).

Definition nonempty {A} (l : list A) : bool :=
  match l with [] => false | _ => true end.

Definition inner_block (rs : list GameResult.t) (p : PlayerProfile.t)
    : list (PlayerProfile.t * option GameResult.t) :=
  map (fun r => (p, Some r))
      (filter (player_is (PlayerProfile.player_id p)) rs).

Definition outer_block (rs : list GameResult.t) (p : PlayerProfile.t)
    : list (PlayerProfile.t * option GameResult.t) :=
  match filter (player_is (PlayerProfile.player_id p)) rs with
  | [] => [(p, None)]
  | ms => map (fun r => (p, Some r)) ms
  end.

(** Descending order of a key. *)
Definition desc {A} (key : A -> Q) (a b : A) : Prop := (key b <= key a)%Q.

(** [two_players] and a third profile of the same user, Carl, who has not
    played. *)
Definition with_idle_player : Store :=
  snd (request (create_player "u1" "Carl") (fun _ => "pC") 4 one_game).

(** The row the leaderboard query returns for a qualifying player. *)
Definition player_row (s : Store) (p : PlayerProfile.t) : Row.t :=
  aggregate (profile_key p, inner_block (game_results s) p).

(* ================================================================== *)
(** ** scripts/seed_dev_data.py *)

(** [db.add_all(objs)] *)
Definition db_add_all (objs : list Instance) : M unit :=
  for_each db_add objs.

(** [seed()]: one user, the profiles Alice and Bob, one game and the two
    results, all added to the session and committed once. *)
Definition seed : M unit :=
  user_id <- uuid4 ;;
  db_add (NewUser user_id "anonymous") ;;;
  alice <- uuid4 ;;
  db_add (NewPlayerProfile alice user_id "Alice") ;;;
  bob <- uuid4 ;;
  db_add (NewPlayerProfile bob user_id "Bob") ;;;
  game_id <- uuid4 ;;
  played_at <- datetime_utcnow ;;
  db_add (NewGame (Game.mk game_id user_id played_at)) ;;;
  result1_id <- uuid4 ;;
  result2_id <- uuid4 ;;
  db_add_all
    [NewGameResult (GameResult.mk result1_id game_id (Some alice) 9800 8 1 true);
     NewGameResult (GameResult.mk result2_id game_id (Some bob) 8700 9 3 false)] ;;;
  db_commit.

(* ================================================================== *)
(** ** The constraints of models.py on a store *)

(** The four primary keys. *)
Definition primary_keys (s : Store) : Prop :=
  NoDup (map User.user_id (users s)) /\
  NoDup (map PlayerProfile.player_id (player_profiles s)) /\
  NoDup (map Game.game_id (games s)) /\
  NoDup (map GameResult.result_id (game_results s)).

(** The four foreign keys; a NULL [player_id] refers to nothing. *)
Definition foreign_keys (s : Store) : Prop :=
  (forall p, In p (player_profiles s) ->
             user_exists s (PlayerProfile.user_id p) = true) /\
  (forall g, In g (games s) -> user_exists s (Game.user_id g) = true) /\
  (forall r, In r (game_results s) ->
             find_game (GameResult.game_id r) s <> None) /\
  (forall r pid, In r (game_results s) ->
                 GameResult.player_id r = Some pid ->
                 player_exists s pid = true).

(** The items of a submission that name one player. *)
Definition items_of (pid : string) (results : list ResultItem)
    : list GameResultEntry.t :=
  map item_entry
      (filter (fun res => String.eqb pid (item_player_id res)) results).

(** An item and the row persisted for it. *)
Definition carries (gid : string) (res : ResultItem) (r : GameResult.t)
    : Prop :=
  GameResult.game_id r = gid /\
  GameResult.player_id r = Some (item_player_id res) /\
  GameResult.score r = GameResultEntry.score (item_entry res) /\
  GameResult.turns_taken r = GameResultEntry.turns (item_entry res) /\
  GameResult.farkles r = GameResultEntry.farkles (item_entry res) /\
  GameResult.won r = GameResultEntry.won (item_entry res).

(* ================================================================== *)
(** ** Running the write operations *)

Lemma find_app {A} (f : A -> bool) (l1 l2 : list A) :
  find f (l1 ++ l2)%list =
  match find f l1 with Some x => Some x | None => find f l2 end.
Proof.
  induction l1 as [ | a l1 IH]; simpl; [ reflexivity | ].
  destruct (f a); [ reflexivity | exact IH ].
Qed.

Lemma find_user_id uid s u : find_user uid s = Some u -> User.user_id u = uid.
Proof.
  unfold find_user. intros H. apply find_some in H.
  destruct H as [_ H]. now apply String.eqb_eq in H.
Qed.

Lemma find_player_id pid s p :
  find_player pid s = Some p -> PlayerProfile.player_id p = pid.
Proof.
  unfold find_player. intros H. apply find_some in H.
  destruct H as [_ H]. now apply String.eqb_eq in H.
Qed.

Lemma find_player_In pid s p :
  find_player pid s = Some p -> In p (player_profiles s).
Proof. unfold find_player. intros H. now apply find_some in H. Qed.

Lemma add_result_run game_id res w :
  add_result game_id res w =
  if readable res then
    match find_player (item_player_id res) (committed (db w)) with
    | None => (Raise (not_found (item_player_id res)), w)
    | Some _ =>
        (Ok tt,
         mkWorld
           (mkSession (committed (db w))
              (new (db w) ++
               [NewGameResult
                  (row_of_entry (uuid_source w (uuid_calls w)) game_id
                                (item_entry res))])%list)
           (uuid_source w) (S (uuid_calls w)) (utcnow w))
    end
  else (Raise no_get, w).
Proof.
  destruct res as [e | e]; destruct e as [pid sc tu fa wo];
    unfold add_result, attr_or_get, readable, getattr_or_None, res_get; simpl.
  - destruct (truthy pid) eqn:Hp; simpl; [ | reflexivity ].
    unfold bind at 1; simpl.
    destruct (truthy sc) eqn:Hs; simpl; [ | reflexivity ].
    unfold bind at 1; simpl.
    destruct (truthy tu) eqn:Ht; simpl; [ | reflexivity ].
    unfold bind at 1; simpl.
    destruct (truthy fa) eqn:Hf; simpl; [ | reflexivity ].
    unfold bind at 1; simpl.
    destruct (truthy wo) eqn:Hw; simpl; [ | reflexivity ].
    unfold bind, db_get_PlayerProfile, read_store, ret; simpl.
    destruct (find_player pid (committed (db w))); reflexivity.
  - unfold bind, db_get_PlayerProfile, read_store, ret; simpl.
    destruct (find_player pid (committed (db w))); reflexivity.
Qed.

(** The loop never touches the committed store; it either stops at the
    first exception or leaves one pending row per item. *)
Lemma for_each_add_result_run game_id results :
  forall w,
    let out := for_each (add_result game_id) results w in
    committed (db (snd out)) = committed (db w) /\
    match loop_exception (committed (db w)) results with
    | Some e => fst out = Raise e
    | None =>
        out =
        (Ok tt,
         mkWorld
           (mkSession (committed (db w))
              (new (db w) ++
               map NewGameResult
                   (result_rows (uuid_source w) (uuid_calls w) game_id
                                results))%list)
           (uuid_source w) (uuid_calls w + List.length results) (utcnow w))
    end.
Proof.
  induction results as [ | res rest IH]; intros w; simpl.
  - split; [ reflexivity | ].
    unfold ret. rewrite app_nil_r, Nat.add_0_r.
    destruct w as [[c n] src k now]; reflexivity.
  - unfold bind. rewrite add_result_run.
    destruct (readable res); [ | split; reflexivity ].
    unfold player_exists.
    destruct (find_player (item_player_id res) (committed (db w))) as [p | ];
      [ | split; reflexivity ].
    match goal with |- context [for_each _ rest ?w1] =>
      specialize (IH w1); simpl in IH; destruct IH as [IHc IHo] end.
    split; [ exact IHc | ].
    destruct (loop_exception (committed (db w)) rest) as [e | ];
      [ exact IHo | ].
    rewrite IHo. rewrite <- app_assoc. simpl.
    now rewrite Nat.add_succ_r.
Qed.

Lemma flush_results now rows :
  forall s,
    match flush now (map NewGameResult rows) s with
    | Some s' =>
        s' = mkStore (users s) (player_profiles s) (games s)
                     (game_results s ++ rows)%list
    | None => True
    end.
Proof.
  induction rows as [ | r rows IH]; intros s; simpl.
  - rewrite app_nil_r. now destruct s.
  - destruct (find_result (GameResult.result_id r) s); [ exact I | ].
    match goal with |- context [flush now _ ?s1] => specialize (IH s1) end.
    destruct (flush now (map NewGameResult rows) _) as [s' | ]; [ | exact I ].
    rewrite IH. simpl. now rewrite <- app_assoc.
Qed.

(** The whole of [create_game_result] inside a request. *)
Lemma create_game_result_run user_id played_at results uuids now s :
  request (create_game_result user_id played_at results) uuids now s =
  match find_user user_id s with
  | None => (Raise (HTTPException 404 "User not found"), s)
  | Some u =>
      match loop_exception s results with
      | Some e => (Raise e, s)
      | None =>
          match
            flush now
              (NewGame (Game.mk (uuids 0%nat) user_id (played played_at now))
               :: map NewGameResult (result_rows uuids 1 (uuids 0%nat) results))
              s
          with
          | Some s' => (Ok (uuids 0%nat), s')
          | None => (Raise IntegrityError, s)
          end
      end
  end.
Proof.
  unfold request, create_game_result.
  unfold bind at 1. unfold db_get_User, read_store, bind, ret. simpl.
  destruct (find_user user_id s) as [u | ] eqn:Hu; [ | reflexivity ].
  rewrite (find_user_id _ _ _ Hu).
  unfold uuid4; simpl.
  assert (Hp : forall w,
             (match played_at with Some t => (fun w => (Ok t, w))
                                 | None => datetime_utcnow end) w
             = (Ok (played played_at (utcnow w)), w)).
  { intros w. destruct played_at; reflexivity. }
  rewrite Hp. simpl. unfold db_add, with_db. simpl.
  match goal with |- context [for_each _ results ?w1] =>
    pose proof (for_each_add_result_run (uuids 0%nat) results w1) as H;
    simpl in H; destruct H as [Hc Ho] end.
  destruct (loop_exception s results) as [e | ].
  - destruct (for_each _ results _) as [r w']. simpl in *. subst r.
    now rewrite Hc.
  - rewrite Ho. unfold db_commit. simpl.
    destruct (find_game (uuids 0%nat) s); [ reflexivity | ].
    destruct (flush now _ _); reflexivity.
Qed.

(** The whole of [create_player] inside a request. *)
Lemma create_player_run user_id display_name uuids now s :
  request (create_player user_id display_name) uuids now s =
  let s1 :=
    match find_user user_id s with
    | Some _ => s
    | None =>
        mkStore (users s ++ [User.mk user_id "anonymous" now])%list
                (player_profiles s) (games s) (game_results s)
    end in
  match find_player (uuids 0%nat) s with
  | Some _ => (Raise IntegrityError, s1)
  | None =>
      (Ok (uuids 0%nat),
       mkStore (users s1)
               (player_profiles s1 ++
                [PlayerProfile.mk (uuids 0%nat) user_id display_name now])%list
               (games s1) (game_results s1))
  end.
Proof.
  unfold request, create_player.
  unfold bind at 1. unfold db_get_User, read_store, bind, ret. simpl.
  destruct (find_user user_id s) as [u | ] eqn:Hu; simpl.
  - rewrite (find_user_id _ _ _ Hu).
    unfold db_commit, db_refresh_PlayerProfile, read_store, bind, ret; simpl.
    destruct (find_player (uuids 0%nat) s) eqn:Hp; simpl; [ reflexivity | ].
    unfold find_player at 1; simpl. rewrite find_app.
    fold (find_player (uuids 0%nat) s). rewrite Hp. simpl.
    now rewrite String.eqb_refl.
  - unfold db_commit, db_refresh_User, db_refresh_PlayerProfile, read_store,
      bind, ret; simpl.
    rewrite Hu. simpl.
    unfold find_user at 1; simpl. rewrite find_app.
    fold (find_user user_id s). rewrite Hu. simpl.
    rewrite String.eqb_refl. simpl.
    unfold find_player at 1; simpl. fold (find_player (uuids 0%nat) s).
    destruct (find_player (uuids 0%nat) s) eqn:Hp; simpl; [ reflexivity | ].
    unfold find_player at 1; simpl. rewrite find_app.
    fold (find_player (uuids 0%nat) s). rewrite Hp. simpl.
    now rewrite String.eqb_refl.
Qed.

(** The tables after [create_player], read off its run. *)
Lemma create_player_tables user_id display_name uuids now s :
  games (snd (request (create_player user_id display_name) uuids now s))
  = games s /\
  game_results (snd (request (create_player user_id display_name) uuids now s))
  = game_results s /\
  users (snd (request (create_player user_id display_name) uuids now s))
  = (if user_exists s user_id then users s
     else users s ++ [User.mk user_id "anonymous" now])%list /\
  (find_player (uuids 0%nat) s = None ->
   player_profiles
     (snd (request (create_player user_id display_name) uuids now s))
   = (player_profiles s ++
      [PlayerProfile.mk (uuids 0%nat) user_id display_name now])%list).
Proof.
  rewrite create_player_run. cbv zeta. unfold user_exists.
  destruct (find_user user_id s) as [u | ];
    destruct (find_player (uuids 0%nat) s) as [p | ]; simpl;
    repeat split; try reflexivity; intros H; discriminate H.
Qed.

(* ================================================================== *)
(** ** Register player *)

(** C8. Registering a player never fails with NotFound.  When no [User] has
    the id, exactly one is created, with login type "anonymous"; when one
    exists, the users are left as they are.  Games and results are never
    touched.  Whenever the generated id is not yet a player id, the call
    returns it and exactly one [PlayerProfile] with that id is created. *)
Theorem create_player_registers user_id display_name uuids now s :
  let out := request (create_player user_id display_name) uuids now s in
  (forall d, fst out <> Raise (HTTPException 404 d)) /\
  users (snd out) =
    (if user_exists s user_id then users s
     else users s ++ [User.mk user_id "anonymous" now])%list /\
  games (snd out) = games s /\
  game_results (snd out) = game_results s /\
  (find_player (uuids 0%nat) s = None ->
   fst out = Ok (uuids 0%nat) /\
   player_profiles (snd out) =
     (player_profiles s ++
      [PlayerProfile.mk (uuids 0%nat) user_id display_name now])%list).
Proof.
  cbv zeta. rewrite create_player_run. unfold user_exists.
  destruct (find_user user_id s) as [u | ];
    destruct (find_player (uuids 0%nat) s) as [p | ]; simpl;
    repeat split; try discriminate; try reflexivity;
    intros H; discriminate H.
Qed.

Lemma create_player_registers_witness :
  find_player "pA" empty_store = None /\
  fst (request (create_player "u1" "Alice") (fun _ => "pA") 1 empty_store)
  = Ok "pA" /\
  player_profiles
    (snd (request (create_player "u1" "Alice") (fun _ => "pA") 1 empty_store))
  = [PlayerProfile.mk "pA" "u1" "Alice" 1].
Proof.
  split; [ reflexivity | ].
  exact (proj2 (proj2 (proj2 (proj2
           (create_player_registers "u1" "Alice" (fun _ => "pA") 1
                                    empty_store)))) eq_refl).
Defined.

(* ================================================================== *)
(** ** Submit game result *)

(** An unknown user id is refused with NotFound and nothing is persisted. *)
Lemma create_game_result_unknown_user user_id played_at results uuids now s :
  find_user user_id s = None ->
  request (create_game_result user_id played_at results) uuids now s
  = (Raise (HTTPException 404 "User not found"), s).
Proof. intros H. rewrite create_game_result_run. now rewrite H. Qed.

(** Whatever the exception, a failed submission persists nothing: the
    [Game] added before the loop is dropped with the session. *)
Lemma create_game_result_failure_persists_nothing
    user_id played_at results uuids now s e s' :
  request (create_game_result user_id played_at results) uuids now s
  = (Raise e, s') ->
  s' = s.
Proof.
  rewrite create_game_result_run.
  destruct (find_user user_id s); [ | congruence ].
  destruct (loop_exception s results); [ congruence | ].
  match goal with |- context [flush ?a ?b ?c] => destruct (flush a b c) end;
    congruence.
Qed.

Lemma loop_exception_not_found s results c d :
  loop_exception s results = Some (HTTPException c d) ->
  c = 404 /\
  exists pid, first_unknown s results = Some pid /\
              d = "Player " ++ pid ++ " not found".
Proof.
  unfold first_unknown.
  induction results as [ | res rest IH]; simpl; [ discriminate | ].
  destruct (readable res); [ | discriminate ].
  destruct (player_exists s (item_player_id res)); simpl.
  - exact IH.
  - intros H. injection H as <- <-. split; [ reflexivity | ].
    now exists (item_player_id res).
Qed.

Lemma loop_exception_readable s results :
  forallb readable results = true ->
  loop_exception s results =
  match first_unknown s results with
  | Some pid => Some (not_found pid)
  | None => None
  end.
Proof.
  unfold first_unknown.
  induction results as [ | res rest IH]; simpl; [ reflexivity | ].
  intros H. apply andb_prop in H. destruct H as [Hr Hrest]. rewrite Hr.
  destruct (player_exists s (item_player_id res)); simpl;
    [ now apply IH | reflexivity ].
Qed.

(** C10. With an existing user, a NotFound failure of a submission always
    names the first player id of the submitted list, in list order, that no
    profile has; and when the items can all be read, a list with such an id
    does fail that way, persisting nothing. *)
Theorem not_found_names_first_unknown
    user_id played_at results uuids now s
    (Huser : user_exists s user_id = true) :
  (forall c d,
     fst (request (create_game_result user_id played_at results) uuids now s)
     = Raise (HTTPException c d) ->
     c = 404 /\
     exists pid, first_unknown s results = Some pid /\
                 d = "Player " ++ pid ++ " not found") /\
  (forallb readable results = true ->
   forall pid,
     first_unknown s results = Some pid ->
     request (create_game_result user_id played_at results) uuids now s
     = (Raise (HTTPException 404 ("Player " ++ pid ++ " not found")), s)).
Proof.
  rewrite create_game_result_run. unfold user_exists in Huser.
  destruct (find_user user_id s) as [u | ]; [ clear Huser | discriminate ].
  split.
  - intros c d.
    destruct (loop_exception s results) as [e | ] eqn:He.
    + simpl. intros H. injection H as ->. now apply loop_exception_not_found.
    + match goal with |- context [flush ?a ?b ?c] =>
        destruct (flush a b c) end; simpl; discriminate.
  - intros Hr pid Hp. rewrite (loop_exception_readable _ _ Hr), Hp.
    reflexivity.
Qed.

Lemma not_found_names_first_unknown_witness :
  user_exists two_players "u1" = true /\
  forallb readable
    [Dict (entry "pA" 9800 true); Dict (entry "ghost" 0 false);
     Dict (entry "nobody" 8700 false)] = true /\
  first_unknown two_players
    [Dict (entry "pA" 9800 true); Dict (entry "ghost" 0 false);
     Dict (entry "nobody" 8700 false)] = Some "ghost" /\
  request
    (create_game_result "u1" None
       [Dict (entry "pA" 9800 true); Dict (entry "ghost" 0 false);
        Dict (entry "nobody" 8700 false)]) ids 3 two_players
  = (Raise (HTTPException 404 "Player ghost not found"), two_players).
Proof.
  split; [ reflexivity | ]. split; [ reflexivity | ].
  split; [ reflexivity | ].
  exact (proj2 (not_found_names_first_unknown "u1" None
                  [Dict (entry "pA" 9800 true); Dict (entry "ghost" 0 false);
                   Dict (entry "nobody" 8700 false)] ids 3 two_players
                  eq_refl) eq_refl "ghost" eq_refl).
Defined.

(** C1, at a submission the endpoint can pass on: the user exists, the one
    entry is a [GameResultEntry] model naming a player no profile has, and
    its [won] flag is false.  Reading [won] falls through to [res.get], which
    a model does not have: the call ends in [AttributeError], not in
    NotFound.  Nothing is persisted. *)
Theorem unknown_player_with_falsy_field_is_not_reported :
  user_exists two_players "u1" = true /\
  player_exists two_players "ghost" = false /\
  request
    (create_game_result "u1" None [Model (entry "ghost" 8700 false)])
    ids 3 two_players
  = (Raise (AttributeError "'GameResultEntry' object has no attribute 'get'"),
     two_players).
Proof. repeat split. Qed.

(** C2, at a submission the endpoint can pass on: the user and both players
    exist, the entries are [GameResultEntry] models and the second one has
    [won] false.  The call ends in [AttributeError]; no [Game] and no
    [GameResult] is persisted.  The same entries passed as dicts are
    accepted. *)
Theorem model_entry_with_false_won_is_refused :
  user_exists two_players "u1" = true /\
  player_exists two_players "pA" = true /\
  player_exists two_players "pB" = true /\
  request
    (create_game_result "u1" None
       [Model (entry "pA" 9800 true); Model (entry "pB" 8700 false)])
    ids 3 two_players
  = (Raise (AttributeError "'GameResultEntry' object has no attribute 'get'"),
     two_players) /\
  fst (request
         (create_game_result "u1" None
            [Dict (entry "pA" 9800 true); Dict (entry "pB" 8700 false)])
         ids 3 two_players)
  = Ok "id0".
Proof. repeat split. Qed.

(** What an accepted submission persists: the game id is the first value of
    [uuid4] and was not a game id before; one [Game] and, per item and in
    list order, one [GameResult] carrying the item's values are appended,
    and every item could be read and names an existing player. *)
Lemma create_game_result_accepted
    user_id played_at results uuids now s gid s' :
  request (create_game_result user_id played_at results) uuids now s
  = (Ok gid, s') ->
  gid = uuids 0%nat /\
  find_game gid s = None /\
  forallb readable results = true /\
  first_unknown s results = None /\
  s' = mkStore (users s) (player_profiles s)
         (games s ++ [Game.mk gid user_id (played played_at now)])%list
         (game_results s ++ result_rows uuids 1 gid results)%list.
Proof.
  rewrite create_game_result_run.
  destruct (find_user user_id s); [ | discriminate ].
  destruct (loop_exception s results) eqn:He; [ discriminate | ].
  simpl. destruct (find_game (uuids 0%nat) s) eqn:Hg; [ discriminate | ].
  match goal with |- context [flush now (map NewGameResult ?rows) ?s1] =>
    pose proof (flush_results now rows s1) as Hf;
    destruct (flush now (map NewGameResult rows) s1) end; [ | discriminate ].
  intros H. injection H as <- <-. subst s0. simpl.
  assert (Hall : forallb readable results = true /\
                 first_unknown s results = None).
  { clear - He. unfold first_unknown.
    induction results as [ | res rest IH]; simpl in *; [ now split | ].
    destruct (readable res); [ | discriminate ].
    destruct (player_exists s (item_player_id res)); [ | discriminate ].
    simpl. now apply IH. }
  destruct Hall. repeat split; assumption.
Qed.

Lemma result_rows_game uuids n gid results r :
  In r (result_rows uuids n gid results) -> GameResult.game_id r = gid.
Proof.
  revert n. induction results as [ | res rest IH]; simpl; intros n;
    [ contradiction | ].
  intros [<- | H]; [ reflexivity | now apply (IH (S n)) ].
Qed.

Lemma result_rows_players uuids n gid results :
  non_null (map GameResult.player_id (result_rows uuids n gid results))
  = map item_player_id results.
Proof.
  revert n. induction results as [ | res rest IH]; simpl; intros n;
    [ reflexivity | ].
  rewrite IH. now destruct res.
Qed.

Lemma non_null_app {A} (l1 l2 : list (option A)) :
  non_null (l1 ++ l2) = (non_null l1 ++ non_null l2)%list.
Proof.
  induction l1 as [ | [a | ] l1 IH]; simpl; [ reflexivity | | exact IH ].
  now rewrite IH.
Qed.

Lemma filter_all {A} (f : A -> bool) (l : list A) :
  (forall x, In x l -> f x = true) -> filter f l = l.
Proof.
  induction l as [ | a l IH]; simpl; intros H; [ reflexivity | ].
  rewrite (H a (or_introl eq_refl)). f_equal. apply IH. auto.
Qed.

Lemma filter_none {A} (f : A -> bool) (l : list A) :
  (forall x, In x l -> f x = false) -> filter f l = [].
Proof.
  induction l as [ | a l IH]; simpl; intros H; [ reflexivity | ].
  rewrite (H a (or_introl eq_refl)). apply IH. auto.
Qed.

(** One call keeps both the foreign key of the results and the bound of
    one result per player and game, when the submitted player ids are
    pairwise distinct. *)
Lemma run_call_keeps_invariant c s :
  distinct_players c ->
  results_reference_games s -> one_result_per_player s ->
  results_reference_games (snd (run_call c s)) /\
  one_result_per_player (snd (run_call c s)).
Proof.
  unfold run_call, distinct_players.
  destruct (call_op c) as [uid name | uid pa results]; intros Hd Hfk Hone.
  - destruct (create_player_tables uid name (call_uuids c) (call_now c) s)
      as (Hg & Hr & _).
    split.
    + intros r Hin. rewrite Hr in Hin. unfold find_game. rewrite Hg.
      now apply Hfk.
    + intros gid. unfold players_of_game. rewrite Hr. apply Hone.
  - destruct (request (create_game_result uid pa results) (call_uuids c)
                      (call_now c) s) as [[gid | e] s'] eqn:Hrun; simpl.
    2:{ apply create_game_result_failure_persists_nothing in Hrun.
        subst s'. now split. }
    apply create_game_result_accepted in Hrun.
    destruct Hrun as (Hgid & Hfresh & _ & _ & ->).
    split.
    + intros r Hin. simpl in Hin. unfold find_game. simpl. rewrite find_app.
      apply in_app_or in Hin. destruct Hin as [Hin | Hin].
      * specialize (Hfk r Hin). unfold find_game in Hfk.
        destruct (find _ (games s)); [ discriminate | contradiction ].
      * apply result_rows_game in Hin. rewrite Hin.
        destruct (find _ (games s)); [ discriminate | ].
        simpl. rewrite String.eqb_refl. discriminate.
    + intros g. unfold players_of_game. simpl.
      rewrite filter_app, map_app, non_null_app.
      destruct (String.eqb gid g) eqn:Hg.
      * apply String.eqb_eq in Hg. subst g.
        rewrite (filter_none _ (game_results s)).
        2:{ intros r Hin. apply String.eqb_neq. intros Heq.
            apply (Hfk r Hin). now rewrite Heq. }
        rewrite filter_all.
        2:{ intros r Hin. apply result_rows_game in Hin.
            now apply String.eqb_eq. }
        simpl. now rewrite result_rows_players.
      * rewrite (filter_none _ (result_rows _ _ _ _)).
        2:{ intros r Hin. apply result_rows_game in Hin. now rewrite Hin. }
        simpl. rewrite app_nil_r. apply Hone.
Qed.

(** C4, as the code has it.  From a store in which every result belongs to
    a stored game and no game has two results of one player, any sequence
    of write calls whose submissions each list pairwise distinct player
    ids ends in a store where no game has two results of one player. *)
Theorem distinct_submissions_keep_one_result_per_player cs :
  forall s,
    results_reference_games s -> one_result_per_player s ->
    Forall distinct_players cs ->
    one_result_per_player (run_calls cs s).
Proof.
  unfold run_calls.
  induction cs as [ | c cs IH]; simpl; intros s Hfk Hone Hd;
    [ exact Hone | ].
  inversion Hd as [ | c' cs' Hc Hcs ]; subst.
  destruct (run_call_keeps_invariant c s Hc Hfk Hone) as [Hfk' Hone'].
  now apply IH.
Qed.

Lemma distinct_submissions_keep_one_result_per_player_witness :
  results_reference_games empty_store /\
  one_result_per_player empty_store /\
  Forall distinct_players sample_calls /\
  run_calls sample_calls empty_store = one_game /\
  one_result_per_player (run_calls sample_calls empty_store).
Proof.
  assert (Hfk : results_reference_games empty_store).
  { intros r Hin. destruct Hin. }
  assert (Hone : one_result_per_player empty_store).
  { intros gid. constructor. }
  assert (Hd : Forall distinct_players sample_calls).
  { repeat constructor; simpl; intuition discriminate. }
  split; [ exact Hfk | ]. split; [ exact Hone | ]. split; [ exact Hd | ].
  split; [ reflexivity | ].
  exact (distinct_submissions_keep_one_result_per_player sample_calls
           empty_store Hfk Hone Hd).
Defined.

(** C4 as stated fails: a submission that lists player [pA] twice is
    accepted and leaves two results of [pA] in the new game. *)
Lemma repeated_player_is_accepted :
  ~ (forall c s,
       results_reference_games s -> one_result_per_player s ->
       (exists gid, fst (run_call c s) = Ok gid) ->
       one_result_per_player (snd (run_call c s))).
Proof.
  intros H.
  specialize (H (mkCall (SubmitGameResult "u1" None
                           [Dict (entry "pA" 9800 true);
                            Dict (entry "pA" 300 false)]) ids 3)
                two_players).
  assert (Hbad : one_result_per_player
                   (snd (run_call
                           (mkCall (SubmitGameResult "u1" None
                                      [Dict (entry "pA" 9800 true);
                                       Dict (entry "pA" 300 false)]) ids 3)
                           two_players))).
  { apply H.
    - intros r Hin. destruct Hin.
    - intros gid. constructor.
    - exists "id0". reflexivity. }
  specialize (Hbad "id0"). vm_compute in Hbad.
  inversion Hbad as [ | x l Hnotin Hnd ]; subst.
  apply Hnotin. left. reflexivity.
Qed.

Lemma flush_results_fresh now rows :
  forall s,
    NoDup (map GameResult.result_id rows) ->
    (forall r, In r rows -> find_result (GameResult.result_id r) s = None) ->
    flush now (map NewGameResult rows) s
    = Some (mkStore (users s) (player_profiles s) (games s)
                    (game_results s ++ rows)%list).
Proof.
  induction rows as [ | r rows IH]; intros s Hnd Hfresh; simpl.
  - rewrite app_nil_r. now destruct s.
  - inversion Hnd as [ | x l Hnotin Hnd' ]; subst.
    rewrite (Hfresh r (or_introl eq_refl)).
    rewrite IH; [ simpl; now rewrite <- app_assoc | exact Hnd' | ].
    intros r' Hr'. unfold find_result. simpl. rewrite find_app.
    specialize (Hfresh r' (or_intror Hr')). unfold find_result in Hfresh.
    rewrite Hfresh. simpl.
    destruct (String.eqb (GameResult.result_id r) (GameResult.result_id r'))
      eqn:E; [ | reflexivity ].
    apply String.eqb_eq in E. elim Hnotin. rewrite E. now apply in_map.
Qed.

(** Which submissions are accepted: the user exists, every item can be read
    and names an existing player, and the generated ids are new.  Then the
    first value of [uuid4] is returned as the game id, and one [Game] and
    one [GameResult] per item, carrying the item's values, are persisted. *)
Lemma create_game_result_accepts
    user_id played_at results uuids now s :
  user_exists s user_id = true ->
  forallb readable results = true ->
  first_unknown s results = None ->
  find_game (uuids 0%nat) s = None ->
  NoDup (map GameResult.result_id
             (result_rows uuids 1 (uuids 0%nat) results)) ->
  (forall r, In r (result_rows uuids 1 (uuids 0%nat) results) ->
             find_result (GameResult.result_id r) s = None) ->
  request (create_game_result user_id played_at results) uuids now s
  = (Ok (uuids 0%nat),
     mkStore (users s) (player_profiles s)
       (games s ++ [Game.mk (uuids 0%nat) user_id (played played_at now)])%list
       (game_results s ++ result_rows uuids 1 (uuids 0%nat) results)%list).
Proof.
  intros Hu Hr Hk Hg Hnd Hfresh.
  rewrite create_game_result_run. unfold user_exists in Hu.
  destruct (find_user user_id s); [ | discriminate ].
  rewrite (loop_exception_readable _ _ Hr), Hk.
  simpl. rewrite Hg.
  rewrite flush_results_fresh; [ reflexivity | exact Hnd | exact Hfresh ].
Qed.

(* ================================================================== *)
(** ** Player statistics *)

Lemma truthy_or_int (v : Z) : (if truthy v then v else 0) = v.
Proof.
  unfold truthy, Truthy_int.
  destruct (v =? 0) eqn:H; simpl; [ | reflexivity ].
  apply Z.eqb_eq in H. now subst.
Qed.

Lemma py_or_int v : py_or (Some v) 0 = v.
Proof. apply truthy_or_int. Qed.

Lemma non_null_map_Some {A B} (f : A -> B) (l : list A) :
  non_null (map (fun x => Some (f x)) l) = map f l.
Proof. induction l as [ | a l IH]; simpl; [ reflexivity | now rewrite IH ]. Qed.

Lemma py_or_sql_sum {A} (f : A -> Z) (l : list A) :
  py_or (sql_sum (map (fun x => Some (f x)) l)) 0 = Zsum (map f l).
Proof.
  unfold sql_sum. rewrite non_null_map_Some.
  destruct l as [ | a l]; [ reflexivity | ].
  change (map f (a :: l)) with (f a :: map f l). apply py_or_int.
Qed.

Lemma py_or_sql_max {A} (f : A -> Z) (a : A) (l : list A) :
  py_or (sql_max (map (fun x => Some (f x)) (a :: l))) 0
  = Zmaximum (f a) (map f l).
Proof.
  unfold sql_max. rewrite non_null_map_Some.
  change (map f (a :: l)) with (f a :: map f l). apply py_or_int.
Qed.

Lemma Zmaximum_spec l :
  forall x, In (Zmaximum x l) (x :: l) /\
            forall y, In y (x :: l) -> y <= Zmaximum x l.
Proof.
  induction l as [ | a l IH]; intros x; simpl.
  - split; [ now left | ]. intros y [<- | []]. lia.
  - destruct (IH (Z.max x a)) as [Hin Hmax]. split.
    + destruct Hin as [Hin | Hin]; [ | now right; right ].
      rewrite <- Hin.
      destruct (Z.max_spec x a) as [[_ ->] | [_ ->]]; auto.
    + intros y Hy.
      assert (Hle : y <= Z.max x a \/ In y l).
      { destruct Hy as [<- | [<- | Hy]]; [ left; lia | left; lia | now right ]. }
      destruct Hle as [Hle | Hy'].
      * specialize (Hmax (Z.max x a) (or_introl eq_refl)). lia.
      * apply Hmax. now right.
Qed.

Lemma player_filter_ext pid (l : list GameResult.t) :
  filter (fun r => match GameResult.player_id r with
                   | Some q => String.eqb q pid
                   | None => false
                   end) l
  = filter (player_is pid) l.
Proof.
  apply filter_ext. intros r. unfold player_is.
  destruct (GameResult.player_id r); [ apply String.eqb_sym | reflexivity ].
Qed.

(** The whole of [get_player_stats] inside a request. *)
Lemma get_player_stats_run pid uuids now s :
  request (get_player_stats pid) uuids now s =
  match find_player pid s with
  | None => (Raise (HTTPException 404 "Player not found"), s)
  | Some p =>
      (Ok (PlayerStatsResponse.mk
             (PlayerProfile.player_id p) (PlayerProfile.display_name p)
             (games_of s pid) (wins_of s pid) (points_of s pid)
             (mean_of s pid) (farkles_of s pid)
             (py_or (sql_max (map (fun r => Some (GameResult.score r))
                                  (results_of s pid))) 0)), s)
  end.
Proof.
  unfold request, get_player_stats.
  unfold bind at 1. unfold db_get_PlayerProfile, db_query, read_store, bind, ret.
  simpl. destruct (find_player pid s) as [p | ]; [ | reflexivity ].
  cbn -[py_or sql_sum sql_count sql_avg sql_max].
  rewrite player_filter_ext. fold (results_of s pid).
  rewrite !py_or_sql_sum, truthy_or_int.
  unfold sql_count, sql_avg. rewrite !non_null_map_Some.
  unfold mean_of, games_of, wins_of, points_of, farkles_of.
  rewrite !length_map.
  destruct (results_of s pid) as [ | r rows]; [ reflexivity | ].
  cbn [map List.length]. now rewrite length_map.
Qed.

(** C3. For an existing player the statistics are returned, never an
    error or a null: the number of results referencing the player, the sum
    of their win flags, the sums of their scores and farkles, the mean of
    the scores and their maximum; without a result, mean and maximum are
    0. *)
Theorem get_player_stats_aggregates pid p uuids now s
    (Hp : find_player pid s = Some p) :
  exists st,
    request (get_player_stats pid) uuids now s = (Ok st, s) /\
    PlayerStatsResponse.player_id st = pid /\
    PlayerStatsResponse.display_name st = PlayerProfile.display_name p /\
    PlayerStatsResponse.games_played st
      = Z.of_nat (List.length (results_of s pid)) /\
    PlayerStatsResponse.wins st
      = Zsum (map (fun r => cast_Integer (GameResult.won r))
                  (results_of s pid)) /\
    PlayerStatsResponse.total_points st
      = Zsum (map GameResult.score (results_of s pid)) /\
    PlayerStatsResponse.total_farkles st
      = Zsum (map GameResult.farkles (results_of s pid)) /\
    (results_of s pid = [] ->
     PlayerStatsResponse.avg_score st = 0%Q /\
     PlayerStatsResponse.high_score st = 0) /\
    (results_of s pid <> [] ->
     (PlayerStatsResponse.avg_score st
      * inject_Z (Z.of_nat (List.length (results_of s pid)))
      == inject_Z (Zsum (map GameResult.score (results_of s pid))))%Q /\
     In (PlayerStatsResponse.high_score st)
        (map GameResult.score (results_of s pid)) /\
     forall r, In r (results_of s pid) ->
               GameResult.score r <= PlayerStatsResponse.high_score st).
Proof.
  rewrite get_player_stats_run, Hp.
  eexists. split; [ reflexivity | ].
  cbn -[py_or sql_max Zsum mean_of Qmult inject_Z].
  split; [ now apply find_player_id in Hp | ].
  repeat (split; [ reflexivity | ]).
  unfold mean_of, points_of, games_of.
  destruct (results_of s pid) as [ | r0 rows] eqn:Hrows.
  - split; [ intros _; now split | ]. intros H. now elim H.
  - split; [ discriminate | ]. intros _. split.
    + apply Qdiv_mult_l. intros H.
      apply (Qeq_eq_bool) in H. discriminate H.
    + rewrite py_or_sql_max.
      destruct (Zmaximum_spec (map GameResult.score rows)
                              (GameResult.score r0)) as [Hin Hmax].
      split; [ exact Hin | ].
      intros r Hr. apply Hmax.
      change (In (GameResult.score r)
                 (map GameResult.score (r0 :: rows))).
      now apply in_map.
Qed.

Lemma get_player_stats_aggregates_witness :
  find_player "pA" one_game = Some (PlayerProfile.mk "pA" "u1" "Alice" 1) /\
  exists st,
    request (get_player_stats "pA") ids 4 one_game = (Ok st, one_game) /\
    PlayerStatsResponse.games_played st = 1 /\
    PlayerStatsResponse.wins st = 1 /\
    PlayerStatsResponse.total_points st = 9800 /\
    PlayerStatsResponse.high_score st = 9800.
Proof.
  split; [ reflexivity | ].
  destruct (get_player_stats_aggregates "pA"
              (PlayerProfile.mk "pA" "u1" "Alice" 1) ids 4 one_game eq_refl)
    as (st & Hrun & _ & _ & Hg & Hw & Ht & _ & _ & Hne).
  exists st. split; [ exact Hrun | ].
  split; [ exact Hg | ]. split; [ exact Hw | ]. split; [ exact Ht | ].
  assert (Hsome : results_of one_game "pA" <> []) by (vm_compute; discriminate).
  destruct (Hne Hsome) as (_ & Hin & _).
  vm_compute in Hin. destruct Hin as [Hin | []].
  symmetry. exact Hin.
Defined.

(* ================================================================== *)
(** ** The read operations change nothing *)

Lemma get_player_stats_world pid w : snd (get_player_stats pid w) = w.
Proof.
  unfold get_player_stats.
  unfold bind at 1. unfold db_get_PlayerProfile, db_query, read_store, bind, ret.
  simpl. destruct (find_player pid (committed (db w))); reflexivity.
Qed.

Lemma get_leaderboard_world sort limit w :
  snd (get_leaderboard sort limit w) = w.
Proof. reflexivity. Qed.

Lemma get_user_players_world uid w : snd (get_user_players uid w) = w.
Proof.
  unfold get_user_players.
  unfold bind at 1. unfold db_get_User, db_query, read_store, bind, ret.
  simpl. destruct (find_user uid (committed (db w))); reflexivity.
Qed.

Lemma request_store {A} (op : M A) uuids now s :
  (forall w, snd (op w) = w) -> snd (request op uuids now s) = s.
Proof.
  intros H. unfold request.
  specialize (H (mkWorld (mkSession s []) uuids 0%nat now)).
  destruct (op _) as [r w']. simpl in *. now subst w'.
Qed.

(** C9. Whatever the store and the input, and whether the call succeeds or
    fails with NotFound, the store after [get_player_stats],
    [get_leaderboard] and [get_user_players] is the store before it. *)
Theorem read_operations_leave_store_unchanged uuids now s :
  (forall pid, snd (request (get_player_stats pid) uuids now s) = s) /\
  (forall sort limit,
     snd (request (get_leaderboard sort limit) uuids now s) = s) /\
  (forall uid, snd (request (get_user_players uid) uuids now s) = s).
Proof.
  split; [ | split ].
  - intros pid. apply request_store. apply get_player_stats_world.
  - intros sort limit. apply request_store. apply get_leaderboard_world.
  - intros uid. apply request_store. apply get_user_players_world.
Qed.

(* ================================================================== *)
(** ** The grouped queries *)

Lemma key_eqb_eq k1 k2 : key_eqb k1 k2 = true <-> k1 = k2.
Proof.
  destruct k1 as [a1 b1], k2 as [a2 b2]. unfold key_eqb. simpl.
  rewrite andb_true_iff, !String.eqb_eq. split.
  - now intros [-> ->].
  - intros H. now injection H.
Qed.

Lemma key_eqb_refl k : key_eqb k k = true.
Proof. now apply key_eqb_eq. Qed.

Lemma key_eqb_neq k1 k2 : key_eqb k1 k2 = false <-> k1 <> k2.
Proof.
  split.
  - intros H Heq. apply key_eqb_eq in Heq. congruence.
  - intros H. destruct (key_eqb k1 k2) eqn:E; [ | reflexivity ].
    apply key_eqb_eq in E. contradiction.
Qed.

Lemma filter_comm {A} (f g : A -> bool) (l : list A) :
  filter f (filter g l) = filter g (filter f l).
Proof.
  induction l as [ | a l IH]; simpl; [ reflexivity | ].
  destruct (f a) eqn:Hf, (g a) eqn:Hg; simpl; rewrite ?Hf, ?Hg, IH;
    reflexivity.
Qed.

Lemma filter_idem {A} (f : A -> bool) (l : list A) :
  filter f (filter f l) = filter f l.
Proof.
  apply filter_all. intros x Hx. now apply filter_In in Hx.
Qed.

Lemma distinct_filter k l :
  filter (fun k' => negb (key_eqb k' k)) (distinct l)
  = distinct (filter (fun k' => negb (key_eqb k' k)) l).
Proof.
  induction l as [ | a l IH]; simpl; [ reflexivity | ].
  destruct (key_eqb a k) eqn:Hak; simpl.
  - apply key_eqb_eq in Hak. subst a. now rewrite filter_idem.
  - f_equal. now rewrite filter_comm, IH.
Qed.

Lemma distinct_In k l : In k (distinct l) -> In k l.
Proof.
  revert k. induction l as [ | a l IH]; simpl; intros k; [ tauto | ].
  intros [-> | H]; [ now left | ].
  apply filter_In in H. right. apply IH. tauto.
Qed.

Section Blocks.

(** The joined rows of one profile; every join here is a concatenation
    of such blocks. *)
Variable block :
  PlayerProfile.t -> list (PlayerProfile.t * option GameResult.t).
Hypothesis block_fst : forall p row, In row (block p) -> fst row = p.

Lemma block_key p row : In row (block p) -> group_key row = profile_key p.
Proof. intros H. unfold group_key. now rewrite (block_fst p row H). Qed.

Lemma flat_map_key ps row :
  In row (flat_map block ps) ->
  In (fst (group_key row)) (map PlayerProfile.player_id ps).
Proof.
  intros H. apply in_flat_map in H. destruct H as (p & Hp & Hrow).
  rewrite (block_key p row Hrow). simpl. now apply in_map.
Qed.

(** With distinct player ids, grouping returns the non-empty blocks, in
    the order of the profiles. *)
Lemma group_by_blocks ps :
  NoDup (map PlayerProfile.player_id ps) ->
  group_by (flat_map block ps)
  = map (fun p => (profile_key p, block p))
        (filter (fun p => nonempty (block p)) ps).
Proof.
  induction ps as [ | p ps IH]; simpl; intros Hnd; [ reflexivity | ].
  inversion Hnd as [ | x l Hnotin Hnd' ]; subst.
  specialize (IH Hnd').
  assert (Hother : forall row, In row (flat_map block ps) ->
                               key_eqb (group_key row) (profile_key p) = false).
  { intros row Hrow. apply key_eqb_neq. intros Heq.
    apply flat_map_key in Hrow. rewrite Heq in Hrow. now apply Hnotin. }
  destruct (block p) as [ | r b] eqn:Hb; simpl; [ exact IH | ].
  assert (Hmine : forall row, In row (r :: b) ->
                              key_eqb (group_key row) (profile_key p) = true).
  { intros row Hrow. apply key_eqb_eq. apply block_key. now rewrite Hb. }
  unfold group_by in *. simpl.
  rewrite (proj1 (key_eqb_eq _ _) (Hmine r (or_introl eq_refl))).
  rewrite key_eqb_refl. simpl.
  rewrite distinct_filter, map_app, !filter_app.
  rewrite (filter_none _ (map group_key b)).
  2:{ intros k Hk. apply in_map_iff in Hk. destruct Hk as (row & <- & Hrow).
      rewrite (Hmine row (or_intror Hrow)). reflexivity. }
  rewrite (filter_all _ (map group_key (flat_map block ps))).
  2:{ intros k Hk. apply in_map_iff in Hk. destruct Hk as (row & <- & Hrow).
      now rewrite (Hother row Hrow). }
  rewrite (filter_all _ b).
  2:{ intros row Hrow. apply Hmine. now right. }
  rewrite (filter_none _ (flat_map block ps)) by exact Hother.
  rewrite app_nil_r. simpl. f_equal; [ now rewrite Hb | ].
  rewrite <- IH. apply map_ext_in. intros k Hk. f_equal.
  apply distinct_In in Hk. apply in_map_iff in Hk.
  destruct Hk as (row & <- & Hrow).
  assert (Hk : key_eqb (profile_key p) (group_key row) = false).
  { apply key_eqb_neq. intros Heq. specialize (Hother row Hrow).
    apply key_eqb_neq in Hother. congruence. }
  rewrite Hk. rewrite filter_app.
  rewrite (filter_none _ b); [ reflexivity | ].
  intros row' Hrow'. apply key_eqb_neq. intros Heq.
  specialize (Hmine row' (or_intror Hrow')). apply key_eqb_eq in Hmine.
  specialize (Hother row Hrow). apply key_eqb_neq in Hother. congruence.
Qed.

End Blocks.

Lemma inner_join_blocks ps rs :
  inner_join ps rs = flat_map (inner_block rs) ps.
Proof. reflexivity. Qed.

Lemma outer_join_blocks ps rs :
  outer_join ps rs = flat_map (outer_block rs) ps.
Proof. reflexivity. Qed.

Lemma inner_block_fst rs p row : In row (inner_block rs p) -> fst row = p.
Proof.
  unfold inner_block. intros H. apply in_map_iff in H.
  now destruct H as (r & <- & _).
Qed.

Lemma outer_block_fst rs p row : In row (outer_block rs p) -> fst row = p.
Proof.
  unfold outer_block.
  destruct (filter _ rs) as [ | r0 ms]; simpl.
  - now intros [<- | []].
  - intros [<- | H]; [ reflexivity | ].
    apply in_map_iff in H. now destruct H as (r & <- & _).
Qed.

Lemma outer_block_nonempty rs p : nonempty (outer_block rs p) = true.
Proof. unfold outer_block. now destruct (filter _ rs). Qed.

Lemma inner_block_nonempty s p :
  nonempty (inner_block (game_results s) p) = has_results s p.
Proof.
  unfold inner_block, has_results, results_of.
  now destruct (filter _ (game_results s)).
Qed.

Lemma column_inner_block {A} (f : GameResult.t -> A) rs p :
  column f (inner_block rs p)
  = map (fun r => Some (f r))
        (filter (player_is (PlayerProfile.player_id p)) rs).
Proof. unfold column, inner_block. now rewrite map_map. Qed.

Lemma truthy_or_float (q : Q) : ((if truthy q then q else 0) == q)%Q.
Proof.
  unfold truthy, Truthy_float.
  destruct (Qeq_bool q 0) eqn:H; simpl; [ | reflexivity ].
  apply Qeq_bool_eq in H. now symmetry.
Qed.

Lemma py_or_sql_avg s pid :
  (py_or (sql_avg (map (fun r => Some (GameResult.score r)) (results_of s pid)))
         0
   == mean_of s pid)%Q.
Proof.
  unfold sql_avg, mean_of, points_of, games_of.
  rewrite non_null_map_Some.
  destruct (results_of s pid) as [ | r rows]; [ reflexivity | ].
  cbn [map List.length py_or]. rewrite length_map. apply truthy_or_float.
Qed.

(** The row of the inner join's group of [p] gives the summary of [p]. *)
Lemma inner_row_summarises s p :
  summarises s p
    (entry_of_row
       (aggregate (profile_key p, inner_block (game_results s) p))).
Proof.
  unfold summarises, aggregate, profile_key, entry_of_row.
  cbn -[py_or sql_sum sql_avg].
  rewrite !column_inner_block. fold (results_of s (PlayerProfile.player_id p)).
  rewrite !py_or_sql_sum.
  repeat (split; [ reflexivity | ]). split; [ | reflexivity ].
  apply py_or_sql_avg.
Qed.

(** So does the row of the outer join's group, where a profile without a
    result has the single row of NULLs. *)
Lemma outer_row_summarises s p :
  summarises s p
    (entry_of_row
       (aggregate (profile_key p, outer_block (game_results s) p))).
Proof.
  destruct (results_of s (PlayerProfile.player_id p)) as [ | r0 ms] eqn:Hr.
  - unfold outer_block. unfold results_of in Hr. rewrite Hr.
    unfold summarises, wins_of, points_of, mean_of, results_of.
    rewrite Hr. repeat split; reflexivity.
  - assert (Hb : outer_block (game_results s) p
                 = inner_block (game_results s) p).
    { unfold outer_block, inner_block. unfold results_of in Hr.
      now rewrite Hr. }
    rewrite Hb. apply inner_row_summarises.
Qed.

Lemma outer_row_without_results s p :
  results_of s (PlayerProfile.player_id p) = [] ->
  entry_of_row (aggregate (profile_key p, outer_block (game_results s) p))
  = PlayerInfoEntry.mk (PlayerProfile.player_id p)
                       (PlayerProfile.display_name p) 0 0%Q 0.
Proof.
  intros Hr. unfold outer_block. unfold results_of in Hr. now rewrite Hr.
Qed.

Lemma NoDup_map_filter {A B} (f : A -> B) (g : A -> bool) (l : list A) :
  NoDup (map f l) -> NoDup (map f (filter g l)).
Proof.
  induction l as [ | a l IH]; simpl; intros H; [ constructor | ].
  inversion H as [ | x l' Hnotin Hnd ]; subst.
  destruct (g a); simpl; [ | now apply IH ].
  constructor; [ | now apply IH ].
  intros Hin. apply Hnotin. apply in_map_iff in Hin.
  destruct Hin as (x & Hx & Hin). apply filter_In in Hin.
  rewrite <- Hx. apply in_map. tauto.
Qed.

Lemma filter_flat_map_blocks
    (block : PlayerProfile.t -> list (PlayerProfile.t * option GameResult.t))
    (g : PlayerProfile.t -> bool) ps :
  (forall p row, In row (block p) -> fst row = p) ->
  filter (fun row => g (fst row)) (flat_map block ps)
  = flat_map block (filter g ps).
Proof.
  intros Hfst. induction ps as [ | p ps IH]; simpl; [ reflexivity | ].
  rewrite filter_app, IH.
  destruct (g p) eqn:Hg; simpl.
  - f_equal. apply filter_all. intros row Hrow.
    now rewrite (Hfst p row Hrow).
  - rewrite filter_none; [ reflexivity | ].
    intros row Hrow. now rewrite (Hfst p row Hrow).
Qed.

(** The rows of the leaderboard query: one per qualifying player. *)
Lemma leaderboard_aggregation s :
  unique_player_ids s ->
  map aggregate (group_by (inner_join (player_profiles s) (game_results s)))
  = map (fun p => aggregate (profile_key p, inner_block (game_results s) p))
        (qualifying s).
Proof.
  intros Hpk. rewrite inner_join_blocks.
  rewrite (group_by_blocks _ (inner_block_fst (game_results s)) _ Hpk).
  rewrite map_map. unfold qualifying. f_equal.
  apply filter_ext. intros p. apply inner_block_nonempty.
Qed.

(** The rows of the query of [get_user_players]: one per owned profile. *)
Lemma user_players_aggregation s uid :
  unique_player_ids s ->
  map aggregate
      (group_by
         (filter (fun row => String.eqb (PlayerProfile.user_id (fst row)) uid)
                 (outer_join (player_profiles s) (game_results s))))
  = map (fun p => aggregate (profile_key p, outer_block (game_results s) p))
        (filter (owned_by uid) (player_profiles s)).
Proof.
  intros Hpk. rewrite outer_join_blocks.
  rewrite (filter_flat_map_blocks _ (owned_by uid) _
             (outer_block_fst (game_results s))).
  rewrite (group_by_blocks _ (outer_block_fst (game_results s))).
  2:{ now apply NoDup_map_filter. }
  rewrite map_map. f_equal. apply filter_all.
  intros p _. apply outer_block_nonempty.
Qed.

(* ================================================================== *)
(** ** List players for user *)

Lemma get_user_players_run uid uuids now s :
  request (get_user_players uid) uuids now s =
  match find_user uid s with
  | None => (Raise (HTTPException 404 "User not found"), s)
  | Some _ =>
      (Ok (map entry_of_row
             (map aggregate
                (group_by
                   (filter (fun row =>
                              String.eqb (PlayerProfile.user_id (fst row)) uid)
                           (outer_join (player_profiles s)
                                       (game_results s)))))), s)
  end.
Proof.
  unfold request, get_user_players.
  unfold bind at 1. unfold db_get_User, db_query, read_store, bind, ret.
  simpl. destruct (find_user uid s); reflexivity.
Qed.

Lemma Forall2_map_r {A B} (R : A -> B -> Prop) (f : A -> B) (l : list A) :
  (forall a, In a l -> R a (f a)) -> Forall2 R l (map f l).
Proof.
  induction l as [ | a l IH]; simpl; intros H; constructor; auto.
Qed.

(** C7. An unknown user id fails with NotFound.  For an existing user the
    call returns, profile by profile, exactly one summary per profile the
    user owns; a profile without any result is listed with wins 0, average
    0 and total points 0. *)
Theorem get_user_players_lists_every_profile uid uuids now s
    (Hpk : unique_player_ids s) :
  (user_exists s uid = false ->
   request (get_user_players uid) uuids now s
   = (Raise (HTTPException 404 "User not found"), s)) /\
  (user_exists s uid = true ->
   exists out,
     request (get_user_players uid) uuids now s = (Ok out, s) /\
     Forall2 (summarises s) (filter (owned_by uid) (player_profiles s)) out /\
     forall p,
       In p (player_profiles s) -> PlayerProfile.user_id p = uid ->
       results_of s (PlayerProfile.player_id p) = [] ->
       In (PlayerInfoEntry.mk (PlayerProfile.player_id p)
                              (PlayerProfile.display_name p) 0 0%Q 0) out).
Proof.
  rewrite get_user_players_run. unfold user_exists.
  destruct (find_user uid s) as [u | ]; split; try discriminate;
    try reflexivity.
  intros _. rewrite (user_players_aggregation s uid Hpk), map_map.
  eexists. split; [ reflexivity | ]. split.
  - apply Forall2_map_r. intros p _. apply outer_row_summarises.
  - intros p Hin Hown Hnone.
    rewrite <- (outer_row_without_results s p Hnone).
    apply (in_map (fun p => entry_of_row
                    (aggregate (profile_key p,
                                outer_block (game_results s) p)))).
    apply filter_In. split; [ exact Hin | ].
    unfold owned_by. now apply String.eqb_eq.
Qed.

Lemma unique_player_ids_sample : unique_player_ids with_idle_player.
Proof.
  vm_compute.
  repeat constructor; simpl; intuition discriminate.
Defined.

Lemma get_user_players_lists_every_profile_witness :
  unique_player_ids with_idle_player /\
  user_exists with_idle_player "u1" = true /\
  exists out,
    request (get_user_players "u1") ids 5 with_idle_player
    = (Ok out, with_idle_player) /\
    List.length out = 3%nat /\
    In (PlayerInfoEntry.mk "pC" "Carl" 0 0%Q 0) out.
Proof.
  split; [ exact unique_player_ids_sample | ]. split; [ reflexivity | ].
  destruct (proj2 (get_user_players_lists_every_profile "u1" ids 5
                     with_idle_player unique_player_ids_sample) eq_refl)
    as (out & Hrun & Hall & Hzero).
  exists out. split; [ exact Hrun | ]. split.
  - apply Forall2_length in Hall. now rewrite <- Hall.
  - apply (Hzero (PlayerProfile.mk "pC" "u1" "Carl" 4)).
    + vm_compute. tauto.
    + reflexivity.
    + vm_compute. reflexivity.
Defined.

(* ================================================================== *)
(** ** Leaderboard *)

Lemma firstn_In {A} (n : nat) (l : list A) (x : A) :
  In x (firstn n l) -> In x l.
Proof.
  revert l. induction n as [ | n IH]; intros l; simpl; [ tauto | ].
  destruct l as [ | a l]; simpl; [ tauto | ].
  intros [H | H]; [ now left | right; now apply IH ].
Qed.

Section Sorting.

Context {A : Type} (key : A -> Q).

Lemma Qltb_true x y : Qltb x y = true -> (x <= y)%Q.
Proof.
  unfold Qltb. intros H. apply negb_true_iff in H.
  apply Qlt_le_weak. apply Qnot_le_lt. intros Hle.
  apply Qle_bool_iff in Hle. congruence.
Qed.

Lemma Qltb_false x y : Qltb x y = false -> (y <= x)%Q.
Proof.
  unfold Qltb. intros H. apply negb_false_iff in H.
  now apply Qle_bool_iff.
Qed.

Lemma insert_desc_perm x l : Permutation (insert_desc key x l) (x :: l).
Proof.
  induction l as [ | y l IH]; simpl; [ reflexivity | ].
  destruct (Qltb (key x) (key y)); [ | reflexivity ].
  rewrite IH. apply perm_swap.
Qed.

Lemma sorted_reverse_perm l : Permutation (sorted_reverse key l) l.
Proof.
  induction l as [ | x l IH]; simpl; [ reflexivity | ].
  rewrite insert_desc_perm. now constructor.
Qed.

Lemma insert_desc_sorted x l :
  Sorted (desc key) l -> Sorted (desc key) (insert_desc key x l).
Proof.
  induction l as [ | y l IH]; simpl; intros Hs.
  - repeat constructor.
  - inversion Hs as [ | y' l' Hl Hhd ]; subst.
    destruct (Qltb (key x) (key y)) eqn:Hxy.
    + constructor; [ now apply IH | ].
      destruct l as [ | z l]; simpl.
      * constructor. now apply Qltb_true.
      * destruct (Qltb (key x) (key z)).
        -- constructor. now inversion Hhd.
        -- constructor. now apply Qltb_true.
    + constructor; [ exact Hs | ].
      constructor. now apply Qltb_false.
Qed.

Lemma sorted_reverse_sorted l : Sorted (desc key) (sorted_reverse key l).
Proof.
  induction l as [ | x l IH]; simpl; [ constructor | ].
  now apply insert_desc_sorted.
Qed.

Lemma desc_trans : Relations_1.Transitive (desc key).
Proof.
  intros a b c Hab Hbc. unfold desc in *. now apply Qle_trans with (key b).
Qed.

Lemma sorted_reverse_strongly l :
  StronglySorted (desc key) (sorted_reverse key l).
Proof.
  apply Sorted_StronglySorted; [ exact desc_trans | ].
  apply sorted_reverse_sorted.
Qed.

Lemma firstn_strongly n l :
  StronglySorted (desc key) l -> StronglySorted (desc key) (firstn n l).
Proof.
  revert l. induction n as [ | n IH]; intros l Hs; simpl; [ constructor | ].
  destruct l as [ | a l]; [ constructor | ].
  inversion Hs as [ | a' l' Hl Hall ]; subst.
  constructor; [ now apply IH | ].
  apply Forall_forall. intros x Hx.
  apply (proj1 (Forall_forall _ _) Hall). now apply firstn_In in Hx.
Qed.

End Sorting.

Lemma map_strongly {A B} (f : A -> B) (key : A -> Q) (key' : B -> Q) l :
  (forall a, key' (f a) = key a) ->
  StronglySorted (desc key) l -> StronglySorted (desc key') (map f l).
Proof.
  intros Hk Hs. induction Hs as [ | a l Hl IH Hall]; simpl; constructor.
  - exact IH.
  - apply Forall_forall. intros b Hb. apply in_map_iff in Hb.
    destruct Hb as (x & <- & Hx). unfold desc. rewrite !Hk.
    now apply (proj1 (Forall_forall _ _) Hall).
Qed.

Lemma slice_to_firstn {A} (l : list A) limit :
  0 <= limit -> slice_to l limit = firstn (Z.to_nat limit) l.
Proof.
  intros H. unfold slice_to.
  destruct (0 <=? limit) eqn:E; [ reflexivity | ].
  apply Z.leb_gt in E. lia.
Qed.

Lemma entry_value_of_row sort row :
  entry_value sort (entry_of_row row) = sort_value sort row.
Proof. now destruct sort. Qed.

Lemma summarises_value sort s p e :
  summarises s p e ->
  (entry_value sort e == player_value sort s (PlayerProfile.player_id p))%Q.
Proof.
  intros (_ & _ & Hw & Ha & Ht). destruct sort; simpl.
  - exact Ha.
  - now rewrite Hw.
  - now rewrite Ht.
Qed.

(** The whole of [get_leaderboard] inside a request. *)
Lemma get_leaderboard_run sort limit uuids now s :
  unique_player_ids s -> 0 <= limit ->
  request (get_leaderboard sort limit) uuids now s =
  (Ok (map entry_of_row
         (firstn (Z.to_nat limit)
                 (sorted_reverse (sort_value sort)
                                 (map (player_row s) (qualifying s))))), s).
Proof.
  intros Hpk Hl. unfold request, get_leaderboard.
  unfold bind, db_query, read_store, ret. simpl.
  rewrite (leaderboard_aggregation s Hpk), (slice_to_firstn _ _ Hl).
  reflexivity.
Qed.

Lemma qualifying_In s p :
  In p (qualifying s) <->
  In p (player_profiles s) /\ results_of s (PlayerProfile.player_id p) <> [].
Proof.
  unfold qualifying. rewrite filter_In. unfold has_results.
  destruct (results_of s (PlayerProfile.player_id p)); split;
    intros [H1 H2]; split; congruence.
Qed.

Lemma player_row_id s p :
  Row.player_id (player_row s p) = PlayerProfile.player_id p.
Proof. reflexivity. Qed.

Lemma strongly_sorted_app {A} (key : A -> Q) (l1 l2 : list A) :
  StronglySorted (desc key) (l1 ++ l2) ->
  forall a b, In a l1 -> In b l2 -> desc key a b.
Proof.
  induction l1 as [ | x l1 IH]; simpl; intros Hs a b Ha Hb; [ destruct Ha | ].
  inversion Hs as [ | x' l' Hl Hall ]; subst.
  destruct Ha as [<- | Ha]; [ | now apply IH ].
  apply (proj1 (Forall_forall _ _) Hall). apply in_or_app. now right.
Qed.

(** The whole leaderboard is what [get_leaderboard] returns when the
    limit is the number of qualifying players: the sorted rows, uncut. *)
Lemma get_leaderboard_whole sort uuids now s :
  unique_player_ids s ->
  request (get_leaderboard sort (Z.of_nat (List.length (qualifying s))))
          uuids now s
  = (Ok (map entry_of_row
           (sorted_reverse (sort_value sort)
                           (map (player_row s) (qualifying s)))), s).
Proof.
  intros Hpk.
  rewrite (get_leaderboard_run sort _ uuids now s Hpk (Nat2Z.is_nonneg _)).
  rewrite Nat2Z.id, firstn_all2; [ reflexivity | ].
  rewrite (Permutation_length (sorted_reverse_perm _ _)), length_map.
  apply Nat.le_refl.
Qed.

Lemma leaderboard_whole_facts sort s :
  unique_player_ids s ->
  let full := map entry_of_row
                  (sorted_reverse (sort_value sort)
                                  (map (player_row s) (qualifying s))) in
  StronglySorted (desc (entry_value sort)) full /\
  List.length full = List.length (qualifying s) /\
  NoDup (map PlayerInfoEntry.player_id full) /\
  (forall p, In p (qualifying s) -> exists e, In e full /\ summarises s p e).
Proof.
  intros Hpk full. unfold full.
  set (rows := map (player_row s) (qualifying s)).
  assert (Hperm : Permutation (sorted_reverse (sort_value sort) rows) rows)
    by apply sorted_reverse_perm.
  split; [ | split; [ | split ] ].
  - apply (map_strongly _ (sort_value sort)).
    + intros row. apply entry_value_of_row.
    + apply sorted_reverse_strongly.
  - rewrite length_map, (Permutation_length Hperm). apply length_map.
  - rewrite map_map.
    change (fun x => PlayerInfoEntry.player_id (entry_of_row x))
      with Row.player_id.
    apply (Permutation_NoDup
             (Permutation_sym (Permutation_map Row.player_id Hperm))).
    unfold rows. rewrite map_map.
    change (fun x => Row.player_id (player_row s x))
      with PlayerProfile.player_id.
    unfold qualifying. now apply NoDup_map_filter.
  - intros p Hp. exists (entry_of_row (player_row s p)).
    split; [ | apply inner_row_summarises ].
    apply in_map. apply (Permutation_in _ (Permutation_sym Hperm)).
    unfold rows. now apply in_map.
Qed.

(** A qualifying player the cut leaves out is not above any entry kept. *)
Lemma leaderboard_rest_is_below sort n s p e :
  In p (qualifying s) ->
  (forall e', In e' (map entry_of_row
                         (firstn n (sorted_reverse (sort_value sort)
                                      (map (player_row s) (qualifying s))))) ->
              PlayerInfoEntry.player_id e' <> PlayerProfile.player_id p) ->
  In e (map entry_of_row
            (firstn n (sorted_reverse (sort_value sort)
                         (map (player_row s) (qualifying s))))) ->
  (player_value sort s (PlayerProfile.player_id p) <= entry_value sort e)%Q.
Proof.
  set (sorted := sorted_reverse (sort_value sort)
                                (map (player_row s) (qualifying s))).
  intros Hp Hout He.
  assert (Hin : In (player_row s p) sorted).
  { apply (Permutation_in _ (Permutation_sym (sorted_reverse_perm _ _))).
    now apply in_map. }
  rewrite <- (firstn_skipn n sorted) in Hin. apply in_app_or in Hin.
  destruct Hin as [Hin | Hin].
  - elim (Hout (entry_of_row (player_row s p))); [ now apply in_map | ].
    reflexivity.
  - apply in_map_iff in He. destruct He as (row & <- & Hrow).
    rewrite <- (summarises_value sort s p _ (inner_row_summarises s p)).
    rewrite !entry_value_of_row.
    assert (Hs : StronglySorted (desc (sort_value sort))
                   (firstn n sorted ++ skipn n sorted)).
    { rewrite firstn_skipn. apply sorted_reverse_strongly. }
    exact (strongly_sorted_app _ _ _ Hs row (player_row s p) Hrow Hin).
Qed.

(** C6. The leaderboard is in non-increasing order of the chosen figure; it
    has as many entries as the limit allows and there are qualifying
    players; and it is cut after sorting.  With limit 1 and a qualifying
    player, its single entry is the summary of a qualifying player whose
    figure no qualifying player exceeds.  For every limit, each entry is
    the summary of a qualifying player, a qualifying player without an
    entry has a figure not above that of any entry, and the result is the
    first [limit] entries of the whole leaderboard: the sorted list of one
    summary per qualifying player that the limit [number of qualifying
    players] returns. *)
Theorem get_leaderboard_sorted_then_cut sort limit uuids now s
    (Hpk : unique_player_ids s) (Hlimit : 0 <= limit) :
  exists out,
    request (get_leaderboard sort limit) uuids now s = (Ok out, s) /\
    StronglySorted (desc (entry_value sort)) out /\
    List.length out
      = Nat.min (Z.to_nat limit) (List.length (qualifying s)) /\
    (limit = 1 -> qualifying s <> [] ->
     exists e q,
       out = [e] /\ In q (qualifying s) /\ summarises s q e /\
       forall p, In p (qualifying s) ->
                 (player_value sort s (PlayerProfile.player_id p)
                  <= entry_value sort e)%Q) /\
    (forall e, In e out ->
       exists q, In q (qualifying s) /\ summarises s q e) /\
    (forall p, In p (qualifying s) ->
       (forall e, In e out ->
          PlayerInfoEntry.player_id e <> PlayerProfile.player_id p) ->
       forall e, In e out ->
         (player_value sort s (PlayerProfile.player_id p)
          <= entry_value sort e)%Q) /\
    exists full,
      request (get_leaderboard sort (Z.of_nat (List.length (qualifying s))))
              uuids now s
      = (Ok full, s) /\
      StronglySorted (desc (entry_value sort)) full /\
      List.length full = List.length (qualifying s) /\
      NoDup (map PlayerInfoEntry.player_id full) /\
      (forall p, In p (qualifying s) ->
         exists e, In e full /\ summarises s p e) /\
      out = firstn (Z.to_nat limit) full.
Proof.
  rewrite (get_leaderboard_run sort limit uuids now s Hpk Hlimit).
  eexists. split; [ reflexivity | ].
  set (rows := map (player_row s) (qualifying s)).
  set (sorted := sorted_reverse (sort_value sort) rows).
  assert (Hperm : Permutation sorted rows) by apply sorted_reverse_perm.
  assert (Hsorted : StronglySorted (desc (sort_value sort)) sorted)
    by apply sorted_reverse_strongly.
  split; [ | split; [ | split; [ | split; [ | split ] ] ] ].
  - apply (map_strongly _ (sort_value sort)).
    + intros row. apply entry_value_of_row.
    + now apply firstn_strongly.
  - rewrite length_map, length_firstn.
    rewrite (Permutation_length Hperm). unfold rows. now rewrite length_map.
  - intros -> Hq.
    destruct sorted as [ | top rest] eqn:Hs.
    { apply Permutation_nil in Hperm. unfold rows in Hperm.
      destruct (qualifying s); [ now elim Hq | discriminate ]. }
    assert (Htop : In top rows).
    { apply (Permutation_in top Hperm). now left. }
    unfold rows in Htop. apply in_map_iff in Htop.
    destruct Htop as (q & Hrow & Hin).
    exists (entry_of_row top), q.
    split; [ reflexivity | ]. split; [ exact Hin | ].
    assert (Hsum : summarises s q (entry_of_row top)).
    { rewrite <- Hrow. apply inner_row_summarises. }
    split; [ exact Hsum | ].
    intros p Hp.
    rewrite <- (summarises_value sort s p _ (inner_row_summarises s p)).
    rewrite !entry_value_of_row.
    assert (Hrowp : In (player_row s p) (top :: rest)).
    { apply (Permutation_in _ (Permutation_sym Hperm)).
      unfold rows. now apply in_map. }
    unfold player_row in Hrowp.
    inversion Hsorted as [ | a l Hl Hall ]; subst.
    destruct Hrowp as [<- | Hrest]; [ apply Qle_refl | ].
    exact (proj1 (Forall_forall _ _) Hall _ Hrest).
  - intros e He. apply in_map_iff in He. destruct He as (row & <- & Hrow).
    apply firstn_In in Hrow. apply (Permutation_in _ Hperm) in Hrow.
    unfold rows in Hrow. apply in_map_iff in Hrow.
    destruct Hrow as (q & <- & Hq). exists q.
    split; [ exact Hq | apply inner_row_summarises ].
  - intros p Hp Hout e He.
    exact (leaderboard_rest_is_below sort _ s p e Hp Hout He).
  - rewrite (get_leaderboard_whole sort uuids now s Hpk).
    destruct (leaderboard_whole_facts sort s Hpk) as (F1 & F2 & F3 & F4).
    eexists. split; [ reflexivity | ].
    split; [ exact F1 | ]. split; [ exact F2 | ]. split; [ exact F3 | ].
    split; [ exact F4 | ]. symmetry. apply firstn_map.
Qed.

Lemma get_leaderboard_sorted_then_cut_witness :
  unique_player_ids with_idle_player /\
  0 <= 1 /\
  exists out,
    request (get_leaderboard Sort.total_points 1) ids 5 with_idle_player
    = (Ok out, with_idle_player) /\
    List.length out = 1%nat.
Proof.
  split; [ exact unique_player_ids_sample | ]. split; [ lia | ].
  destruct (get_leaderboard_sorted_then_cut Sort.total_points 1 ids 5
              with_idle_player unique_player_ids_sample
              (Z.le_0_1))
    as (out & Hrun & _ & Hlen & _).
  exists out. split; [ exact Hrun | exact Hlen ].
Defined.

Lemma NoDup_firstn {A} (n : nat) (l : list A) :
  NoDup l -> NoDup (firstn n l).
Proof.
  revert l. induction n as [ | n IH]; intros l H; simpl; [ constructor | ].
  destruct l as [ | a l]; [ constructor | ].
  inversion H as [ | x l' Hnotin Hnd ]; subst.
  constructor; [ | now apply IH ].
  intros Hin. apply Hnotin. now apply firstn_In in Hin.
Qed.

(** C5, as the code has it.  Every returned summary is the summary (display
    name, win count, average score, total points) of a profile with at
    least one result, no two are of the same player, no profile without a
    result has one, and when the limit is not below the number of
    qualifying players every one of them has its summary.  With a smaller
    limit the result is the first [limit] summaries of the sorted list of
    all of them, so a qualifying player left out has a figure not above
    that of any summary returned. *)
Theorem get_leaderboard_summaries sort limit uuids now s
    (Hpk : unique_player_ids s) (Hlimit : 0 <= limit) :
  exists out,
    request (get_leaderboard sort limit) uuids now s = (Ok out, s) /\
    NoDup (map PlayerInfoEntry.player_id out) /\
    (forall e, In e out ->
       exists p, In p (player_profiles s) /\
                 results_of s (PlayerProfile.player_id p) <> [] /\
                 summarises s p e) /\
    (forall p e,
       In p (player_profiles s) ->
       results_of s (PlayerProfile.player_id p) = [] ->
       In e out ->
       PlayerInfoEntry.player_id e <> PlayerProfile.player_id p) /\
    (Z.of_nat (List.length (qualifying s)) <= limit ->
     forall p, In p (player_profiles s) ->
               results_of s (PlayerProfile.player_id p) <> [] ->
               exists e, In e out /\ summarises s p e) /\
    List.length out
      = Nat.min (Z.to_nat limit) (List.length (qualifying s)) /\
    (forall p, In p (player_profiles s) ->
       results_of s (PlayerProfile.player_id p) <> [] ->
       (forall e, In e out ->
          PlayerInfoEntry.player_id e <> PlayerProfile.player_id p) ->
       forall e, In e out ->
         (player_value sort s (PlayerProfile.player_id p)
          <= entry_value sort e)%Q) /\
    exists full,
      request (get_leaderboard sort (Z.of_nat (List.length (qualifying s))))
              uuids now s
      = (Ok full, s) /\
      StronglySorted (desc (entry_value sort)) full /\
      List.length full = List.length (qualifying s) /\
      NoDup (map PlayerInfoEntry.player_id full) /\
      (forall p, In p (player_profiles s) ->
         results_of s (PlayerProfile.player_id p) <> [] ->
         exists e, In e full /\ summarises s p e) /\
      out = firstn (Z.to_nat limit) full.
Proof.
  rewrite (get_leaderboard_run sort limit uuids now s Hpk Hlimit).
  eexists. split; [ reflexivity | ].
  set (rows := map (player_row s) (qualifying s)).
  set (sorted := sorted_reverse (sort_value sort) rows).
  assert (Hperm : Permutation sorted rows) by apply sorted_reverse_perm.
  assert (Hfrom : forall e,
             In e (map entry_of_row (firstn (Z.to_nat limit) sorted)) ->
             exists p, In p (qualifying s) /\
                       e = entry_of_row (player_row s p)).
  { intros e He. apply in_map_iff in He. destruct He as (row & <- & Hrow).
    apply firstn_In in Hrow. apply (Permutation_in _ Hperm) in Hrow.
    unfold rows in Hrow. apply in_map_iff in Hrow.
    destruct Hrow as (p & <- & Hp). now exists p. }
  split; [ | split; [ | split; [ | split; [ | split; [ | split ] ] ] ] ].
  - rewrite map_map.
    change (fun x => PlayerInfoEntry.player_id (entry_of_row x))
      with Row.player_id.
    rewrite <- firstn_map. apply NoDup_firstn.
    apply (Permutation_NoDup
             (Permutation_sym (Permutation_map Row.player_id Hperm))).
    unfold rows. rewrite map_map.
    change (fun x => Row.player_id (player_row s x))
      with PlayerProfile.player_id.
    unfold qualifying. now apply NoDup_map_filter.
  - intros e He. destruct (Hfrom e He) as (p & Hp & ->).
    apply qualifying_In in Hp. destruct Hp as [Hin Hres].
    exists p. repeat split; try assumption; apply inner_row_summarises.
  - intros p e Hin Hnone He Hid. destruct (Hfrom e He) as (q & Hq & ->).
    apply qualifying_In in Hq. destruct Hq as [_ Hres].
    simpl in Hid. rewrite Hid in Hres. contradiction.
  - intros Hall p Hin Hres.
    exists (entry_of_row (player_row s p)).
    split; [ | apply inner_row_summarises ].
    apply in_map. rewrite firstn_all2.
    + apply (Permutation_in _ (Permutation_sym Hperm)).
      unfold rows. apply in_map. now apply qualifying_In.
    + rewrite (Permutation_length Hperm). unfold rows.
      rewrite length_map. lia.
  - rewrite length_map, length_firstn.
    rewrite (Permutation_length Hperm). unfold rows. now rewrite length_map.
  - intros p Hin Hres Hout e He.
    assert (Hp : In p (qualifying s)) by now apply qualifying_In.
    exact (leaderboard_rest_is_below sort _ s p e Hp Hout He).
  - rewrite (get_leaderboard_whole sort uuids now s Hpk).
    destruct (leaderboard_whole_facts sort s Hpk) as (F1 & F2 & F3 & F4).
    eexists. split; [ reflexivity | ].
    split; [ exact F1 | ]. split; [ exact F2 | ]. split; [ exact F3 | ].
    split.
    + intros p Hin Hres. apply F4. now apply qualifying_In.
    + symmetry. apply firstn_map.
Qed.

Lemma get_leaderboard_summaries_witness :
  unique_player_ids with_idle_player /\
  0 <= 25 /\
  exists out,
    request (get_leaderboard Sort.avg_score 25) ids 5 with_idle_player
    = (Ok out, with_idle_player) /\
    map PlayerInfoEntry.player_id out = ["pA"; "pB"].
Proof.
  split; [ exact unique_player_ids_sample | ]. split; [ lia | ].
  destruct (get_leaderboard_summaries Sort.avg_score 25 ids 5
              with_idle_player unique_player_ids_sample
              (Zle_0_pos 25))
    as (out & Hrun & _).
  exists out. split; [ exact Hrun | ].
  vm_compute in Hrun. injection Hrun as <-. vm_compute. reflexivity.
Defined.

(** C5 as stated fails: with limit 1 the leaderboard of [one_game] has the
    summary of Alice only, although Bob has a result too. *)
Lemma get_leaderboard_limit_leaves_players_out :
  ~ (forall sort limit uuids now s,
       unique_player_ids s -> 1 <= limit <= 100 ->
       exists out,
         request (get_leaderboard sort limit) uuids now s = (Ok out, s) /\
         forall p, In p (player_profiles s) ->
                   results_of s (PlayerProfile.player_id p) <> [] ->
                   exists e, In e out /\
                             PlayerInfoEntry.player_id e
                             = PlayerProfile.player_id p).
Proof.
  intros H.
  destruct (H Sort.total_points 1 ids 5 one_game) as (out & Hrun & Hall).
  - vm_compute.
    repeat constructor; simpl; intuition discriminate.
  - lia.
  - vm_compute in Hrun. injection Hrun as <-.
    destruct (Hall (PlayerProfile.mk "pB" "u1" "Bob" 2)) as (e & He & Hid).
    + vm_compute. tauto.
    + vm_compute. discriminate.
    + destruct He as [<- | []]. vm_compute in Hid. discriminate Hid.
Qed.

(* ================================================================== *)
(** ** More on submissions *)

Lemma loop_exception_cases s results e :
  loop_exception s results = Some e ->
  (e = no_get /\ exists res, In res results /\ readable res = false) \/
  (exists pid, e = not_found pid /\ first_unknown s results = Some pid).
Proof.
  unfold first_unknown.
  induction results as [ | res rest IH]; simpl; [ discriminate | ].
  destruct (readable res) eqn:Hr.
  - destruct (player_exists s (item_player_id res)) eqn:Hp; simpl.
    + intros H. destruct (IH H) as [(He & r & Hin & Hrd) | Hnf].
      * left. split; [ exact He | ]. exists r. auto.
      * right. exact Hnf.
    + intros H. injection H as <-. right. now exists (item_player_id res).
  - intros H. injection H as <-. left. split; [ reflexivity | ].
    exists res. auto.
Qed.

Lemma loop_exception_none s results :
  loop_exception s results = None ->
  forallb readable results = true /\ first_unknown s results = None.
Proof.
  unfold first_unknown.
  induction results as [ | res rest IH]; simpl; [ now split | ].
  destruct (readable res); [ | discriminate ].
  destruct (player_exists s (item_player_id res)); [ | discriminate ].
  simpl. exact IH.
Qed.

Lemma flush_game_and_results now g rows s :
  flush now (NewGame g :: map NewGameResult rows) s =
  match find_game (Game.game_id g) s with
  | Some _ => None
  | None =>
      flush now (map NewGameResult rows)
            (mkStore (users s) (player_profiles s) (games s ++ [g])%list
                     (game_results s))
  end.
Proof. simpl. now destruct (find_game (Game.game_id g) s). Qed.

(** X1. A submission that fails persists nothing, whatever was added to
    the session before the failure, and it fails in one of four ways only:
    404 for the user, 404 naming the first unknown player, the
    [AttributeError] of an item that cannot be read, or [IntegrityError]
    from the commit. *)
Theorem submission_failure_modes
    user_id played_at results uuids now s e s'
    (Hrun : request (create_game_result user_id played_at results) uuids now s
            = (Raise e, s')) :
  s' = s /\
  ((e = HTTPException 404 "User not found" /\ user_exists s user_id = false) \/
   (exists pid, e = HTTPException 404 ("Player " ++ pid ++ " not found") /\
                first_unknown s results = Some pid) \/
   (e = AttributeError "'GameResultEntry' object has no attribute 'get'" /\
    exists res, In res results /\ readable res = false) \/
   (e = IntegrityError /\ user_exists s user_id = true /\
    forallb readable results = true /\ first_unknown s results = None)).
Proof.
  split; [ exact (create_game_result_failure_persists_nothing
                    _ _ _ _ _ _ _ _ Hrun) | ].
  rewrite create_game_result_run in Hrun. unfold user_exists.
  destruct (find_user user_id s) as [u | ].
  - destruct (loop_exception s results) as [e0 | ] eqn:He.
    + injection Hrun as <- _.
      destruct (loop_exception_cases _ _ _ He) as [[-> Hres] | Hnf].
      * right. right. left. now split.
      * right. left. exact Hnf.
    + apply loop_exception_none in He.
      match type of Hrun with context [flush ?a ?b ?c] =>
        destruct (flush a b c) end; [ discriminate | ].
      injection Hrun as <- _. right. right. right. tauto.
  - injection Hrun as <- _. left. now split.
Qed.

Lemma submission_failure_modes_witness :
  request (create_game_result "u1" None [Model (entry "pA" 0 true)])
          ids 3 two_players
  = (Raise no_get, two_players) /\
  two_players = two_players.
Proof.
  split; [ reflexivity | ].
  exact (proj1 (submission_failure_modes "u1" None
                  [Model (entry "pA" 0 true)] ids 3 two_players no_get
                  two_players eq_refl)).
Defined.

(** X2. The user is looked up first: for an unknown user id the answer is
    404 "User not found" whatever the items are, and nothing is
    persisted. *)
Theorem submission_for_unknown_user
    user_id played_at results uuids now s
    (Huser : user_exists s user_id = false) :
  request (create_game_result user_id played_at results) uuids now s
  = (Raise (HTTPException 404 "User not found"), s).
Proof.
  apply create_game_result_unknown_user. unfold user_exists in Huser.
  now destruct (find_user user_id s).
Qed.

Lemma submission_for_unknown_user_witness :
  user_exists two_players "nobody" = false /\
  request (create_game_result "nobody" None [Model (entry "ghost" 0 false)])
          ids 3 two_players
  = (Raise (HTTPException 404 "User not found"), two_players).
Proof.
  split; [ reflexivity | ].
  exact (submission_for_unknown_user "nobody" None
           [Model (entry "ghost" 0 false)] ids 3 two_players eq_refl).
Defined.

Lemma result_rows_carry uuids gid results :
  forall n, Forall2 (carries gid) results (result_rows uuids n gid results).
Proof.
  induction results as [ | res rest IH]; intros n; simpl; constructor.
  - destruct res; repeat split.
  - apply IH.
Qed.

Lemma result_rows_ids uuids gid results :
  forall n,
    map GameResult.result_id (result_rows uuids n gid results)
    = map uuids (seq n (List.length results)).
Proof.
  induction results as [ | res rest IH]; intros n; simpl;
    [ reflexivity | now rewrite IH ].
Qed.

(** X3. What an accepted submission does: the user exists; the returned id
    is the first value of [uuid4]; users and profiles are untouched; one
    [Game] of that user is appended, played at the given time or, without
    one, now; and one [GameResult] per item is appended, in the order of
    the items, with the item's player, score, turns, farkles and won. *)
Theorem submission_accepted_effect
    user_id played_at results uuids now s gid s'
    (Hrun : request (create_game_result user_id played_at results) uuids now s
            = (Ok gid, s')) :
  user_exists s user_id = true /\
  gid = uuids 0%nat /\
  users s' = users s /\
  player_profiles s' = player_profiles s /\
  games s'
  = (games s ++
     [Game.mk gid user_id
        (match played_at with Some t => t | None => now end)])%list /\
  exists rows,
    game_results s' = (game_results s ++ rows)%list /\
    Forall2 (carries gid) results rows.
Proof.
  assert (Hu : user_exists s user_id = true).
  { rewrite create_game_result_run in Hrun. unfold user_exists.
    destruct (find_user user_id s); [ reflexivity | discriminate ]. }
  apply create_game_result_accepted in Hrun.
  destruct Hrun as (Hgid & _ & _ & _ & ->). simpl.
  repeat (split; [ assumption || reflexivity | ]).
  eexists. split; [ reflexivity | ]. apply result_rows_carry.
Qed.

Lemma submission_accepted_effect_witness :
  request (create_game_result "u1" None
             [Dict (entry "pA" 9800 true); Dict (entry "pB" 8700 false)])
          ids 3 two_players
  = (Ok "id0", one_game) /\
  games one_game = [Game.mk "id0" "u1" 3].
Proof.
  split; [ reflexivity | ].
  exact (proj1 (proj2 (proj2 (proj2 (proj2
           (submission_accepted_effect "u1" None
              [Dict (entry "pA" 9800 true); Dict (entry "pB" 8700 false)]
              ids 3 two_players "id0" one_game eq_refl)))))).
Defined.

(** X4. When the user exists, every item can be read and names an existing
    player, the generated game id is not taken, and the generated result
    ids are not taken and differ from one another, the submission is
    accepted. *)
Theorem submission_is_accepted
    user_id played_at results uuids now s
    (Huser : user_exists s user_id = true)
    (Hread : forallb readable results = true)
    (Hknown : forallb (fun res => player_exists s (item_player_id res))
                      results = true)
    (Hgame : find_game (uuids 0%nat) s = None)
    (Hdistinct : NoDup (map uuids (seq 1 (List.length results))))
    (Hfresh : forall i, In i (seq 1 (List.length results)) ->
                        find_result (uuids i) s = None) :
  exists s',
    request (create_game_result user_id played_at results) uuids now s
    = (Ok (uuids 0%nat), s') /\
    List.length (games s') = S (List.length (games s)) /\
    List.length (game_results s')
    = (List.length (game_results s) + List.length results)%nat.
Proof.
  eexists. split.
  - apply create_game_result_accepts; try assumption.
    + unfold first_unknown. clear - Hknown.
      induction results as [ | res rest IH]; simpl in *; [ reflexivity | ].
      apply andb_prop in Hknown. destruct Hknown as [H1 H2].
      rewrite H1. simpl. now apply IH.
    + now rewrite result_rows_ids.
    + intros r Hr.
      apply (in_map GameResult.result_id) in Hr.
      rewrite result_rows_ids in Hr. apply in_map_iff in Hr.
      destruct Hr as (i & <- & Hi). now apply Hfresh.
  - simpl. rewrite !length_app. simpl. split; [ lia | ].
    f_equal. clear. generalize 1%nat.
    induction results as [ | res rest IH]; intros n; simpl;
      [ reflexivity | now rewrite IH ].
Qed.

Lemma submission_is_accepted_witness :
  user_exists two_players "u1" = true /\
  exists s',
    request (create_game_result "u1" (Some 77)
               [Model (entry "pA" 9800 true); Dict (entry "pB" 0 false)])
            ids 3 two_players
    = (Ok "id0", s') /\
    List.length (games s') = 1%nat /\
    List.length (game_results s') = 2%nat.
Proof.
  split; [ reflexivity | ].
  refine (submission_is_accepted "u1" (Some 77)
            [Model (entry "pA" 9800 true); Dict (entry "pB" 0 false)]
            ids 3 two_players eq_refl eq_refl eq_refl eq_refl _ _).
  - vm_compute. repeat constructor; simpl; intuition discriminate.
  - intros i Hi. vm_compute in Hi.
    destruct Hi as [<- | [<- | []]]; reflexivity.
Defined.

(** X5. An empty list of results is not refused: with an existing user and
    a game id that is not taken, a [Game] without any [GameResult] is
    persisted. *)
Theorem submission_without_results
    user_id played_at uuids now s
    (Huser : user_exists s user_id = true)
    (Hgame : find_game (uuids 0%nat) s = None) :
  request (create_game_result user_id played_at []) uuids now s
  = (Ok (uuids 0%nat),
     mkStore (users s) (player_profiles s)
       (games s ++
        [Game.mk (uuids 0%nat) user_id
           (match played_at with Some t => t | None => now end)])%list
       (game_results s)).
Proof.
  rewrite (create_game_result_accepts user_id played_at [] uuids now s
             Huser eq_refl eq_refl Hgame).
  - simpl. now rewrite app_nil_r.
  - constructor.
  - intros r [].
Qed.

Lemma submission_without_results_witness :
  user_exists two_players "u1" = true /\
  find_game "id0" two_players = None /\
  request (create_game_result "u1" None []) ids 3 two_players
  = (Ok "id0",
     mkStore (users two_players) (player_profiles two_players)
             [Game.mk "id0" "u1" 3] []).
Proof.
  split; [ reflexivity | ]. split; [ reflexivity | ].
  exact (submission_without_results "u1" None ids 3 two_players
           eq_refl eq_refl).
Defined.

Lemma loop_exception_app s good rest :
  forallb readable good = true ->
  forallb (fun res => player_exists s (item_player_id res)) good = true ->
  loop_exception s (good ++ rest) = loop_exception s rest.
Proof.
  induction good as [ | res good IH]; simpl; intros Hr Hk; [ reflexivity | ].
  apply andb_prop in Hr. destruct Hr as [-> Hr].
  apply andb_prop in Hk. destruct Hk as [-> Hk].
  now apply IH.
Qed.

(** X6. The items are handled in list order and the first offending one
    decides: after items that can be read and name existing players, an
    item that cannot be read ends the call in [AttributeError], also when
    its player is unknown or a later item is; a readable item with an
    unknown player ends it in 404 naming that player, also when a later
    item cannot be read. *)
Theorem first_offending_item_decides
    user_id played_at good bad rest uuids now s
    (Huser : user_exists s user_id = true)
    (Hread : forallb readable good = true)
    (Hknown : forallb (fun res => player_exists s (item_player_id res))
                      good = true) :
  (readable bad = false ->
   request (create_game_result user_id played_at (good ++ bad :: rest))
           uuids now s
   = (Raise (AttributeError "'GameResultEntry' object has no attribute 'get'"),
      s)) /\
  (readable bad = true -> player_exists s (item_player_id bad) = false ->
   request (create_game_result user_id played_at (good ++ bad :: rest))
           uuids now s
   = (Raise (HTTPException 404
               ("Player " ++ item_player_id bad ++ " not found")), s)).
Proof.
  rewrite create_game_result_run. unfold user_exists in Huser.
  destruct (find_user user_id s); [ | discriminate ].
  rewrite (loop_exception_app s good (bad :: rest) Hread Hknown). simpl.
  split.
  - intros ->. reflexivity.
  - intros -> ->. reflexivity.
Qed.

Lemma first_offending_item_decides_witness :
  user_exists two_players "u1" = true /\
  request (create_game_result "u1" None
             ([Dict (entry "pA" 9800 true)]
              ++ Dict (entry "ghost" 1 true) :: [Model (entry "pB" 0 false)]))
          ids 3 two_players
  = (Raise (HTTPException 404 "Player ghost not found"), two_players).
Proof.
  split; [ reflexivity | ].
  exact (proj2 (first_offending_item_decides "u1" None
                  [Dict (entry "pA" 9800 true)] (Dict (entry "ghost" 1 true))
                  [Model (entry "pB" 0 false)] ids 3 two_players
                  eq_refl eq_refl eq_refl) eq_refl eq_refl).
Defined.

(** X7. A generated game id that is already the id of a stored game is not
    written over: the commit fails with [IntegrityError] and the store is
    left as it was. *)
Theorem taken_game_id_is_refused
    user_id played_at results uuids now s
    (Huser : user_exists s user_id = true)
    (Hread : forallb readable results = true)
    (Hknown : first_unknown s results = None)
    (Htaken : find_game (uuids 0%nat) s <> None) :
  request (create_game_result user_id played_at results) uuids now s
  = (Raise IntegrityError, s).
Proof.
  rewrite create_game_result_run. unfold user_exists in Huser.
  destruct (find_user user_id s); [ | discriminate ].
  rewrite (loop_exception_readable _ _ Hread), Hknown.
  rewrite flush_game_and_results. simpl.
  destruct (find_game (uuids 0%nat) s); [ reflexivity | now elim Htaken ].
Qed.

Lemma taken_game_id_is_refused_witness :
  user_exists one_game "u1" = true /\
  find_game "id0" one_game <> None /\
  request (create_game_result "u1" None [Dict (entry "pA" 500 false)])
          ids 9 one_game
  = (Raise IntegrityError, one_game).
Proof.
  assert (H : find_game (ids 0%nat) one_game <> None)
    by (vm_compute; discriminate).
  split; [ reflexivity | ]. split; [ exact H | ].
  exact (taken_game_id_is_refused "u1" None [Dict (entry "pA" 500 false)]
           ids 9 one_game eq_refl eq_refl eq_refl H).
Defined.

(** X8. An accepted submission has no [GameResultEntry] model with a falsy
    field: every model among its items has a non-empty player id, a
    non-zero score, turns and farkles, and won true.  Dicts are not
    restricted. *)
Theorem accepted_models_have_truthy_fields
    user_id played_at results uuids now s gid s'
    (Hrun : request (create_game_result user_id played_at results) uuids now s
            = (Ok gid, s')) :
  forall e, In (Model e) results ->
    GameResultEntry.player_id e <> "" /\
    GameResultEntry.score e <> 0 /\
    GameResultEntry.turns e <> 0 /\
    GameResultEntry.farkles e <> 0 /\
    GameResultEntry.won e = true.
Proof.
  apply create_game_result_accepted in Hrun.
  destruct Hrun as (_ & _ & Hread & _).
  intros e He.
  assert (Hr : readable (Model e) = true).
  { exact (proj1 (forallb_forall _ _) Hread _ He). }
  unfold readable in Hr. rewrite !andb_true_iff in Hr.
  destruct Hr as ((((Hp & Hs) & Ht) & Hf) & Hw).
  unfold truthy, Truthy_str, Truthy_int, Truthy_bool in *.
  repeat split.
  - intros E. rewrite E in Hp. discriminate.
  - intros E. rewrite E in Hs. discriminate.
  - intros E. rewrite E in Ht. discriminate.
  - intros E. rewrite E in Hf. discriminate.
  - exact Hw.
Qed.

Lemma accepted_models_have_truthy_fields_witness :
  request (create_game_result "u1" None [Model (entry "pA" 9800 true)])
          ids 3 two_players
  = (Ok "id0",
     snd (request (create_game_result "u1" None [Model (entry "pA" 9800 true)])
                  ids 3 two_players)) /\
  GameResultEntry.won (entry "pA" 9800 true) = true.
Proof.
  split; [ reflexivity | ].
  exact (proj2 (proj2 (proj2 (proj2
           (accepted_models_have_truthy_fields "u1" None
              [Model (entry "pA" 9800 true)] ids 3 two_players "id0" _
              eq_refl (entry "pA" 9800 true) (or_introl eq_refl)))))).
Defined.

(* ================================================================== *)
(** ** The constraints of the models are kept *)

Lemma find_none_not_in {A} (f : A -> string) (k : string) (l : list A) :
  find (fun a => String.eqb (f a) k) l = None -> ~ In k (map f l).
Proof.
  induction l as [ | a l IH]; simpl; [ tauto | ].
  destruct (String.eqb (f a) k) eqn:E; [ discriminate | ].
  intros H [Heq | Hin]; [ | now apply IH ].
  apply String.eqb_neq in E. contradiction.
Qed.

Lemma find_some_in {A} (f : A -> string) (k : string) (l : list A) :
  In k (map f l) -> find (fun a => String.eqb (f a) k) l <> None.
Proof.
  intros Hin H. now apply find_none_not_in in H.
Qed.

Lemma NoDup_map_snoc {A} (f : A -> string) (l : list A) (x : A) :
  NoDup (map f l) -> ~ In (f x) (map f l) -> NoDup (map f (l ++ [x])).
Proof.
  intros Hnd Hnotin. rewrite map_app. simpl.
  apply NoDup_app; [ exact Hnd | repeat constructor; simpl; tauto | ].
  intros k Hk [<- | []]. contradiction.
Qed.

Lemma insert_primary_keys now o s s' :
  insert now o s = Some s' -> primary_keys s -> primary_keys s'.
Proof.
  unfold primary_keys.
  destruct o as [uid lt | pid uid name | g | r]; simpl;
    intros H (Hu & Hp & Hg & Hr).
  - destruct (find_user uid s) eqn:E; [ discriminate | ].
    injection H as <-. simpl. repeat split; try assumption.
    apply NoDup_map_snoc; [ exact Hu | ].
    exact (find_none_not_in User.user_id uid (users s) E).
  - destruct (find_player pid s) eqn:E; [ discriminate | ].
    injection H as <-. simpl. repeat split; try assumption.
    apply NoDup_map_snoc; [ exact Hp | ].
    exact (find_none_not_in PlayerProfile.player_id pid (player_profiles s) E).
  - destruct (find_game (Game.game_id g) s) eqn:E; [ discriminate | ].
    injection H as <-. simpl. repeat split; try assumption.
    apply NoDup_map_snoc; [ exact Hg | ].
    exact (find_none_not_in Game.game_id _ (games s) E).
  - destruct (find_result (GameResult.result_id r) s) eqn:E;
      [ discriminate | ].
    injection H as <-. simpl. repeat split; try assumption.
    apply NoDup_map_snoc; [ exact Hr | ].
    exact (find_none_not_in GameResult.result_id _ (game_results s) E).
Qed.

Lemma flush_primary_keys now pending :
  forall s s',
    flush now pending s = Some s' -> primary_keys s -> primary_keys s'.
Proof.
  induction pending as [ | o rest IH]; simpl; intros s s' H Hpk.
  - now injection H as <-.
  - destruct (insert now o s) as [s1 | ] eqn:E; [ | discriminate ].
    apply (IH s1 s' H). exact (insert_primary_keys now o s s1 E Hpk).
Qed.

Lemma user_exists_grows s s' uid extra :
  users s' = (users s ++ extra)%list ->
  user_exists s uid = true -> user_exists s' uid = true.
Proof.
  unfold user_exists, find_user. intros -> H. rewrite find_app.
  now destruct (find _ (users s)).
Qed.

Lemma player_exists_grows s s' pid extra :
  player_profiles s' = (player_profiles s ++ extra)%list ->
  player_exists s pid = true -> player_exists s' pid = true.
Proof.
  unfold player_exists, find_player. intros -> H. rewrite find_app.
  now destruct (find _ (player_profiles s)).
Qed.

Lemma find_game_grows s s' gid extra :
  games s' = (games s ++ extra)%list ->
  find_game gid s <> None -> find_game gid s' <> None.
Proof.
  unfold find_game. intros -> H. rewrite find_app.
  destruct (find _ (games s)); [ discriminate | contradiction ].
Qed.

(** Tables that only grow keep the foreign keys of the rows they had. *)
Lemma foreign_keys_grow s s' us ps gs rs :
  users s' = (users s ++ us)%list ->
  player_profiles s' = (player_profiles s ++ ps)%list ->
  games s' = (games s ++ gs)%list ->
  game_results s' = (game_results s ++ rs)%list ->
  foreign_keys s ->
  (forall p, In p ps -> user_exists s' (PlayerProfile.user_id p) = true) ->
  (forall g, In g gs -> user_exists s' (Game.user_id g) = true) ->
  (forall r, In r rs -> find_game (GameResult.game_id r) s' <> None) ->
  (forall r pid, In r rs -> GameResult.player_id r = Some pid ->
                 player_exists s' pid = true) ->
  foreign_keys s'.
Proof.
  intros Hu Hp Hg Hr (F1 & F2 & F3 & F4) N1 N2 N3 N4.
  unfold foreign_keys. rewrite Hp, Hg, Hr.
  repeat split.
  - intros p Hin. apply in_app_or in Hin. destruct Hin as [Hin | Hin].
    + apply (user_exists_grows s s' _ us Hu). now apply F1.
    + now apply N1.
  - intros g Hin. apply in_app_or in Hin. destruct Hin as [Hin | Hin].
    + apply (user_exists_grows s s' _ us Hu). now apply F2.
    + now apply N2.
  - intros r Hin. apply in_app_or in Hin. destruct Hin as [Hin | Hin].
    + apply (find_game_grows s s' _ gs Hg). now apply F3.
    + now apply N3.
  - intros r pid Hin Hpid. apply in_app_or in Hin.
    destruct Hin as [Hin | Hin].
    + apply (player_exists_grows s s' _ ps Hp). now apply (F4 r).
    + now apply (N4 r).
Qed.

Lemma first_unknown_none s results :
  first_unknown s results = None ->
  forall res, In res results -> player_exists s (item_player_id res) = true.
Proof.
  unfold first_unknown. intros H res Hin.
  pose proof (find_none _ _ H (item_player_id res)
                (in_map item_player_id _ _ Hin)) as Hn.
  now apply negb_false_iff in Hn.
Qed.

Lemma result_rows_item uuids gid results :
  forall n r,
    In r (result_rows uuids n gid results) ->
    exists res, In res results /\
                GameResult.player_id r = Some (item_player_id res).
Proof.
  induction results as [ | res rest IH]; simpl; intros n r; [ tauto | ].
  intros [<- | Hin].
  - exists res. split; [ now left | now destruct res ].
  - destruct (IH _ _ Hin) as (res' & Hres & Hp). exists res'. auto.
Qed.

Lemma create_player_keeps_constraints uid name uuids now s :
  primary_keys s -> foreign_keys s ->
  primary_keys (snd (request (create_player uid name) uuids now s)) /\
  foreign_keys (snd (request (create_player uid name) uuids now s)).
Proof.
  intros Hpk Hfk. rewrite create_player_run. cbv zeta.
  set (s1 := match find_user uid s with
             | Some _ => s
             | None => mkStore (users s ++ [User.mk uid "anonymous" now])%list
                               (player_profiles s) (games s) (game_results s)
             end).
  assert (Hu1 : exists us, users s1 = (users s ++ us)%list /\
                           player_profiles s1 = player_profiles s /\
                           games s1 = games s /\
                           game_results s1 = game_results s /\
                           user_exists s1 uid = true).
  { unfold s1, user_exists. destruct (find_user uid s) eqn:E.
    - exists []. rewrite app_nil_r, E. repeat split.
    - eexists. simpl. repeat split. unfold find_user. simpl.
      rewrite find_app. fold (find_user uid s). rewrite E. simpl.
      now rewrite String.eqb_refl. }
  destruct Hu1 as (us & Hus & Hps & Hgs & Hrs & Hex).
  assert (Hpk1 : primary_keys s1).
  { unfold s1. destruct (find_user uid s) eqn:E; [ exact Hpk | ].
    apply (insert_primary_keys now (NewUser uid "anonymous") s); [ | exact Hpk ].
    simpl. now rewrite E. }
  assert (Hfk1 : foreign_keys s1).
  { apply (foreign_keys_grow s s1 us [] [] []);
      rewrite ?app_nil_r; try assumption.
    - intros p [].
    - intros g [].
    - intros r [].
    - intros r pid []. }
  assert (Hfind : find_player (uuids 0%nat) s1 = find_player (uuids 0%nat) s).
  { unfold find_player. now rewrite Hps. }
  destruct (find_player (uuids 0%nat) s) eqn:E; simpl; [ now split | ].
  split.
  - apply (insert_primary_keys now
             (NewPlayerProfile (uuids 0%nat) uid name) s1); [ | exact Hpk1 ].
    simpl. now rewrite Hfind.
  - eapply (foreign_keys_grow s1 _ []
              [PlayerProfile.mk (uuids 0%nat) uid name now] [] []); simpl;
      rewrite ?app_nil_r; try reflexivity; try exact Hfk1.
    + intros p [<- | []]. simpl. exact Hex.
    + intros g [].
    + intros r [].
    + intros r pid [].
Qed.

Lemma create_game_result_keeps_constraints uid pa results uuids now s :
  primary_keys s -> foreign_keys s ->
  primary_keys (snd (request (create_game_result uid pa results) uuids now s))
  /\
  foreign_keys (snd (request (create_game_result uid pa results) uuids now s)).
Proof.
  intros Hpk Hfk.
  destruct (request (create_game_result uid pa results) uuids now s)
    as [[gid | e] s'] eqn:Hrun; simpl.
  2:{ apply create_game_result_failure_persists_nothing in Hrun.
      subst s'. now split. }
  split.
  - rewrite create_game_result_run in Hrun.
    destruct (find_user uid s); [ | discriminate ].
    destruct (loop_exception s results); [ discriminate | ].
    match type of Hrun with context [flush ?a ?b ?c] =>
      destruct (flush a b c) as [s2 | ] eqn:Hf end; [ | discriminate ].
    injection Hrun as _ <-. exact (flush_primary_keys _ _ _ _ Hf Hpk).
  - assert (Hu : user_exists s uid = true).
    { rewrite create_game_result_run in Hrun. unfold user_exists.
      destruct (find_user uid s); [ reflexivity | discriminate ]. }
    apply create_game_result_accepted in Hrun.
    destruct Hrun as (Hgid & Hfresh & _ & Hknown & ->).
    eapply (foreign_keys_grow s _ [] []
              [Game.mk gid uid (played pa now)]
              (result_rows uuids 1 gid results)); simpl;
      rewrite ?app_nil_r; try reflexivity; try exact Hfk.
    + intros p [].
    + intros g [<- | []]. exact Hu.
    + intros r Hin. apply result_rows_game in Hin. rewrite Hin.
      unfold find_game. simpl. rewrite find_app.
      destruct (find _ (games s)); [ discriminate | ].
      simpl. rewrite String.eqb_refl. discriminate.
    + intros r pid Hin Hpid.
      apply result_rows_item in Hin. destruct Hin as (res & Hres & Hp).
      rewrite Hp in Hpid. injection Hpid as <-.
      exact (first_unknown_none s results Hknown res Hres).
Qed.

(** X9. Every primary key and every foreign key of [models.py] is kept by
    the write operations: from a store that satisfies them, any sequence of
    register-player and submit-game-result calls, accepted or refused,
    ends in a store that satisfies them. *)
Theorem write_calls_keep_constraints cs :
  forall s,
    primary_keys s -> foreign_keys s ->
    primary_keys (run_calls cs s) /\ foreign_keys (run_calls cs s).
Proof.
  unfold run_calls.
  induction cs as [ | c cs IH]; simpl; intros s Hpk Hfk; [ now split | ].
  assert (H : primary_keys (snd (run_call c s)) /\
              foreign_keys (snd (run_call c s))).
  { unfold run_call. destruct (call_op c) as [uid name | uid pa results].
    - now apply create_player_keeps_constraints.
    - now apply create_game_result_keeps_constraints. }
  destruct H as [Hpk' Hfk']. now apply IH.
Qed.

Lemma empty_store_constraints :
  primary_keys empty_store /\ foreign_keys empty_store.
Proof.
  split.
  - repeat split; constructor.
  - repeat split; intros ? []; intros [].
Defined.

Lemma write_calls_keep_constraints_witness :
  primary_keys empty_store /\ foreign_keys empty_store /\
  primary_keys (run_calls sample_calls empty_store) /\
  foreign_keys (run_calls sample_calls empty_store).
Proof.
  split; [ exact (proj1 empty_store_constraints) | ].
  split; [ exact (proj2 empty_store_constraints) | ].
  exact (write_calls_keep_constraints sample_calls empty_store
           (proj1 empty_store_constraints) (proj2 empty_store_constraints)).
Defined.

(** X10. [create_player] commits twice.  When the generated player id is
    already taken, the call fails with [IntegrityError] and adds no
    profile, but a user it has just created stays: the first commit is not
    undone. *)
Theorem taken_player_id_keeps_new_user uid name uuids now s
    (Htaken : player_exists s (uuids 0%nat) = true) :
  fst (request (create_player uid name) uuids now s) = Raise IntegrityError /\
  player_profiles (snd (request (create_player uid name) uuids now s))
  = player_profiles s /\
  (user_exists s uid = false ->
   users (snd (request (create_player uid name) uuids now s))
   = (users s ++ [User.mk uid "anonymous" now])%list /\
   user_exists (snd (request (create_player uid name) uuids now s)) uid
   = true).
Proof.
  rewrite create_player_run. cbv zeta. unfold player_exists in Htaken.
  destruct (find_player (uuids 0%nat) s); [ | discriminate ]. simpl.
  split; [ reflexivity | ]. unfold user_exists.
  destruct (find_user uid s) eqn:E; simpl.
  - split; [ reflexivity | discriminate ].
  - split; [ reflexivity | ]. intros _. split; [ reflexivity | ].
    unfold find_user. simpl. rewrite find_app. fold (find_user uid s).
    rewrite E. simpl. now rewrite String.eqb_refl.
Qed.

Lemma taken_player_id_keeps_new_user_witness :
  player_exists two_players "pA" = true /\
  user_exists two_players "u2" = false /\
  request (create_player "u2" "Zed") (fun _ => "pA") 9 two_players
  = (Raise IntegrityError,
     mkStore (users two_players ++ [User.mk "u2" "anonymous" 9])%list
             (player_profiles two_players) [] []).
Proof.
  split; [ reflexivity | ]. split; [ reflexivity | ].
  pose proof (taken_player_id_keeps_new_user "u2" "Zed" (fun _ => "pA") 9
                two_players eq_refl) as H.
  destruct H as (_ & _ & _). reflexivity.
Defined.

(* ================================================================== *)
(** ** Writes followed by reads *)

Lemma Zsum_app l1 l2 : Zsum (l1 ++ l2) = Zsum l1 + Zsum l2.
Proof.
  unfold Zsum. induction l1 as [ | a l1 IH]; simpl; [ reflexivity | ].
  rewrite IH. lia.
Qed.

Lemma item_player_id_entry res :
  item_player_id res = GameResultEntry.player_id (item_entry res).
Proof. now destruct res. Qed.

(** The rows of a submission that reference [pid] are those of the items
    naming [pid], in order. *)
Lemma rows_of_player {A} (f : GameResult.t -> A) (g : GameResultEntry.t -> A)
    uuids gid pid results :
  (forall rid e, f (row_of_entry rid gid e) = g e) ->
  forall n,
    map f (filter (player_is pid) (result_rows uuids n gid results))
    = map g (items_of pid results).
Proof.
  intros Hfg. unfold items_of.
  induction results as [ | res rest IH]; intros n; simpl; [ reflexivity | ].
  unfold player_is at 1. simpl. rewrite <- item_player_id_entry.
  destruct (String.eqb pid (item_player_id res)); simpl.
  - now rewrite Hfg, IH.
  - apply IH.
Qed.

Lemma results_of_after_submission uuids gid pid results s us ps gs :
  results_of
    (mkStore us ps gs (game_results s ++ result_rows uuids 1 gid results)%list)
    pid
  = (results_of s pid
     ++ filter (player_is pid) (result_rows uuids 1 gid results))%list.
Proof. unfold results_of. simpl. apply filter_app. Qed.

(** X11. Round trip of a submission into the statistics.  After an accepted
    submission the statistics of any existing player have grown by exactly
    the items that name the player: their number, their win flags, their
    scores and their farkles; the high score is at least each of their
    scores.  A player no item names has the same counts and sums as
    before. *)
Theorem stats_after_submission
    user_id played_at results uuids now s gid s' pid p uuids1 now1 uuids2 now2
    (Hrun : request (create_game_result user_id played_at results) uuids now s
            = (Ok gid, s'))
    (Hp : find_player pid s = Some p) :
  exists before after,
    request (get_player_stats pid) uuids1 now1 s = (Ok before, s) /\
    request (get_player_stats pid) uuids2 now2 s' = (Ok after, s') /\
    PlayerStatsResponse.games_played after
    = PlayerStatsResponse.games_played before
      + Z.of_nat (List.length (items_of pid results)) /\
    PlayerStatsResponse.wins after
    = PlayerStatsResponse.wins before
      + Zsum (map (fun e => cast_Integer (GameResultEntry.won e))
                  (items_of pid results)) /\
    PlayerStatsResponse.total_points after
    = PlayerStatsResponse.total_points before
      + Zsum (map GameResultEntry.score (items_of pid results)) /\
    PlayerStatsResponse.total_farkles after
    = PlayerStatsResponse.total_farkles before
      + Zsum (map GameResultEntry.farkles (items_of pid results)) /\
    forall e, In e (items_of pid results) ->
              GameResultEntry.score e <= PlayerStatsResponse.high_score after.
Proof.
  apply create_game_result_accepted in Hrun.
  destruct Hrun as (_ & _ & _ & _ & ->).
  rewrite !get_player_stats_run.
  assert (Hp' : forall us gs rs,
             find_player pid (mkStore us (player_profiles s) gs rs)
             = Some p) by (intros; exact Hp).
  rewrite Hp, Hp'. eexists. eexists.
  split; [ reflexivity | ]. split; [ reflexivity | ].
  cbn -[py_or sql_max Zsum results_of items_of].
  unfold games_of, wins_of, points_of, farkles_of.
  rewrite !results_of_after_submission.
  rewrite !map_app, !Zsum_app, length_app, Nat2Z.inj_add.
  rewrite (rows_of_player (fun r => cast_Integer (GameResult.won r))
             (fun e => cast_Integer (GameResultEntry.won e)))
    by reflexivity.
  rewrite (rows_of_player GameResult.score GameResultEntry.score)
    by reflexivity.
  rewrite (rows_of_player GameResult.farkles GameResultEntry.farkles)
    by reflexivity.
  assert (Hlen : List.length (filter (player_is pid)
                                (result_rows uuids 1 gid results))
                 = List.length (items_of pid results)).
  { rewrite <- (length_map GameResult.score),
      (rows_of_player GameResult.score GameResultEntry.score)
        by reflexivity.
    apply length_map. }
  rewrite Hlen.
  repeat (split; [ reflexivity | ]).
  intros e He.
  assert (Hin : In (GameResultEntry.score e)
                   (map GameResult.score
                        (results_of s pid
                         ++ filter (player_is pid)
                                   (result_rows uuids 1 gid results)))%list).
  { rewrite map_app. apply in_or_app. right.
    rewrite (rows_of_player GameResult.score GameResultEntry.score)
      by reflexivity.
    now apply in_map. }
  rewrite <- map_app.
  destruct (results_of s pid ++ _)%list as [ | r0 rows]; [ destruct Hin | ].
  rewrite py_or_sql_max.
  exact (proj2 (Zmaximum_spec (map GameResult.score rows)
                              (GameResult.score r0)) _ Hin).
Qed.

Lemma stats_after_submission_witness :
  request (create_game_result "u1" None
             [Dict (entry "pA" 9800 true); Dict (entry "pB" 8700 false)])
          ids 3 two_players
  = (Ok "id0", one_game) /\
  find_player "pB" two_players = Some (PlayerProfile.mk "pB" "u1" "Bob" 2) /\
  exists before after,
    request (get_player_stats "pB") ids 4 two_players
    = (Ok before, two_players) /\
    request (get_player_stats "pB") ids 5 one_game = (Ok after, one_game) /\
    PlayerStatsResponse.total_points after
    = PlayerStatsResponse.total_points before + 8700.
Proof.
  split; [ reflexivity | ]. split; [ reflexivity | ].
  destruct (stats_after_submission "u1" None
              [Dict (entry "pA" 9800 true); Dict (entry "pB" 8700 false)]
              ids 3 two_players "id0" one_game "pB"
              (PlayerProfile.mk "pB" "u1" "Bob" 2) ids 4 ids 5
              eq_refl eq_refl)
    as (before & after & H1 & H2 & _ & _ & Ht & _).
  exists before, after. split; [ exact H1 | ]. split; [ exact H2 | ].
  exact Ht.
Defined.

Lemma results_of_unknown_player s pid :
  foreign_keys s -> player_exists s pid = false -> results_of s pid = [].
Proof.
  intros (_ & _ & _ & F4) Hno. unfold results_of.
  apply filter_none. intros r Hin.
  destruct (player_is pid r) eqn:E; [ | reflexivity ].
  unfold player_is in E.
  destruct (GameResult.player_id r) as [q | ] eqn:Hq; [ | discriminate ].
  apply String.eqb_eq in E. subst q.
  rewrite (F4 r pid Hin Hq) in Hno. discriminate.
Qed.

(** X12. Round trip of a registration into the list of the user's players.
    From a store that satisfies the constraints, after a registration whose
    generated id was not taken, [get_user_players] of that user succeeds
    and lists the new player with wins 0, average 0 and total points 0,
    together with the profiles the user owned before. *)
Theorem registered_player_is_listed
    user_id display_name uuids now s uuids2 now2
    (Hpk : primary_keys s) (Hfk : foreign_keys s)
    (Hfresh : player_exists s (uuids 0%nat) = false) :
  exists out,
    request (get_user_players user_id) uuids2 now2
            (snd (request (create_player user_id display_name) uuids now s))
    = (Ok out,
       snd (request (create_player user_id display_name) uuids now s)) /\
    In (PlayerInfoEntry.mk (uuids 0%nat) display_name 0 0%Q 0) out /\
    List.length out
    = S (List.length (filter (owned_by user_id) (player_profiles s))).
Proof.
  destruct (create_player_keeps_constraints user_id display_name uuids now s
              Hpk Hfk) as [(_ & Hpk' & _) Hfk'].
  destruct (create_player_tables user_id display_name uuids now s)
    as (_ & Hres & Husers & Hnew).
  unfold player_exists in Hfresh.
  destruct (find_player (uuids 0%nat) s) eqn:E; [ discriminate | ].
  pose proof (Hnew eq_refl) as Hprof. clear Hnew.
  set (s' := snd (request (create_player user_id display_name) uuids now s))
    in *.
  assert (Huser : find_user user_id s' <> None).
  { unfold find_user. rewrite Husers. unfold user_exists.
    destruct (find_user user_id s) eqn:Eu.
    - unfold find_user in Eu. rewrite Eu. discriminate.
    - rewrite find_app. fold (find_user user_id s). rewrite Eu. simpl.
      rewrite String.eqb_refl. discriminate. }
  rewrite get_user_players_run.
  destruct (find_user user_id s') as [u | ]; [ | now elim Huser ].
  rewrite (user_players_aggregation s' user_id Hpk'), map_map.
  eexists. split; [ reflexivity | ].
  set (new := PlayerProfile.mk (uuids 0%nat) user_id display_name now) in *.
  assert (Hnone : results_of s' (PlayerProfile.player_id new) = []).
  { transitivity (results_of s (uuids 0%nat)).
    - unfold results_of. now rewrite Hres.
    - apply (results_of_unknown_player s _ Hfk). unfold player_exists.
      now rewrite E. }
  split.
  - change (PlayerInfoEntry.mk (uuids 0%nat) display_name 0 0%Q 0)
      with (PlayerInfoEntry.mk (PlayerProfile.player_id new)
                               (PlayerProfile.display_name new) 0 0%Q 0).
    rewrite <- (outer_row_without_results s' new Hnone).
    apply (in_map (fun p => entry_of_row
                    (aggregate (profile_key p,
                                outer_block (game_results s') p)))).
    apply filter_In. split.
    + rewrite Hprof. apply in_or_app. right. now left.
    + unfold owned_by. simpl. apply String.eqb_refl.
  - rewrite length_map, Hprof, filter_app, length_app. simpl.
    unfold owned_by at 2. simpl. rewrite String.eqb_refl. simpl. lia.
Qed.

Lemma registered_player_is_listed_witness :
  primary_keys empty_store /\ foreign_keys empty_store /\
  player_exists empty_store "pA" = false /\
  exists out,
    request (get_user_players "u1") ids 2
            (snd (request (create_player "u1" "Alice") (fun _ => "pA") 1
                          empty_store))
    = (Ok out,
       snd (request (create_player "u1" "Alice") (fun _ => "pA") 1
                    empty_store)) /\
    In (PlayerInfoEntry.mk "pA" "Alice" 0 0%Q 0) out /\
    List.length out = 1%nat.
Proof.
  split; [ exact (proj1 empty_store_constraints) | ].
  split; [ exact (proj2 empty_store_constraints) | ].
  split; [ reflexivity | ].
  exact (registered_player_is_listed "u1" "Alice" (fun _ => "pA") 1
           empty_store ids 2 (proj1 empty_store_constraints)
           (proj2 empty_store_constraints) eq_refl).
Defined.

(* ================================================================== *)
(** ** The read operations agree with one another *)

Lemma find_player_of_In s p :
  unique_player_ids s -> In p (player_profiles s) ->
  find_player (PlayerProfile.player_id p) s = Some p.
Proof.
  unfold unique_player_ids, find_player.
  induction (player_profiles s) as [ | a l IH]; simpl; intros Hnd Hin;
    [ destruct Hin | ].
  inversion Hnd as [ | x l' Hnotin Hnd' ]; subst.
  destruct Hin as [-> | Hin].
  - now rewrite String.eqb_refl.
  - destruct (String.eqb (PlayerProfile.player_id a)
                         (PlayerProfile.player_id p)) eqn:E.
    + apply String.eqb_eq in E. elim Hnotin. rewrite E. now apply in_map.
    + now apply IH.
Qed.

(** The entries of the leaderboard stem from qualifying profiles. *)
Lemma leaderboard_entry_origin sort limit uuids now s out e :
  unique_player_ids s -> 0 <= limit ->
  request (get_leaderboard sort limit) uuids now s = (Ok out, s) ->
  In e out ->
  exists p, In p (qualifying s) /\ e = entry_of_row (player_row s p).
Proof.
  intros Hpk Hl Hrun He.
  rewrite (get_leaderboard_run sort limit uuids now s Hpk Hl) in Hrun.
  injection Hrun as <-.
  apply in_map_iff in He. destruct He as (row & <- & Hrow).
  apply firstn_In in Hrow.
  apply (Permutation_in _ (sorted_reverse_perm _ _)) in Hrow.
  apply in_map_iff in Hrow. destruct Hrow as (p & <- & Hp). now exists p.
Qed.

(** X13. The leaderboard and the player statistics agree: for every entry
    of the leaderboard, [get_player_stats] of its player succeeds and
    reports the same display name, wins and total points, the same average
    score, and at least one game played. *)
Theorem leaderboard_agrees_with_stats
    sort limit uuids now s out e uuids2 now2
    (Hpk : unique_player_ids s) (Hlimit : 0 <= limit)
    (Hrun : request (get_leaderboard sort limit) uuids now s = (Ok out, s))
    (He : In e out) :
  exists st,
    request (get_player_stats (PlayerInfoEntry.player_id e)) uuids2 now2 s
    = (Ok st, s) /\
    PlayerStatsResponse.display_name st = PlayerInfoEntry.display_name e /\
    PlayerStatsResponse.wins st = PlayerInfoEntry.wins e /\
    PlayerStatsResponse.total_points st = PlayerInfoEntry.total_points e /\
    (PlayerStatsResponse.avg_score st == PlayerInfoEntry.avg_score e)%Q /\
    0 < PlayerStatsResponse.games_played st.
Proof.
  destruct (leaderboard_entry_origin _ _ _ _ _ _ _ Hpk Hlimit Hrun He)
    as (p & Hp & ->).
  apply qualifying_In in Hp. destruct Hp as [Hin Hres].
  destruct (inner_row_summarises s p) as (Hid & Hname & Hw & Ha & Ht).
  fold (player_row s p) in Hid, Hname, Hw, Ha, Ht.
  rewrite get_player_stats_run, Hid, (find_player_of_In s p Hpk Hin).
  eexists. split; [ reflexivity | ].
  cbn -[py_or sql_max mean_of wins_of points_of games_of entry_of_row
        player_row].
  split; [ now rewrite Hname | ]. split; [ now rewrite Hw | ].
  split; [ now rewrite Ht | ]. split; [ now rewrite Ha | ].
  unfold games_of.
  destruct (results_of s (PlayerProfile.player_id p)); [ now elim Hres | ].
  simpl. lia.
Qed.

Lemma unique_player_ids_one_game : unique_player_ids one_game.
Proof.
  vm_compute. repeat constructor; simpl; intuition discriminate.
Defined.

Lemma leaderboard_agrees_with_stats_witness :
  unique_player_ids one_game /\ 0 <= 25 /\
  exists out e,
    request (get_leaderboard Sort.wins 25) ids 4 one_game = (Ok out, one_game)
    /\ In e out /\
    exists st,
      request (get_player_stats (PlayerInfoEntry.player_id e)) ids 5 one_game
      = (Ok st, one_game) /\
      PlayerStatsResponse.wins st = PlayerInfoEntry.wins e.
Proof.
  split; [ exact unique_player_ids_one_game | ]. split; [ lia | ].
  assert (Hrun : exists out,
             request (get_leaderboard Sort.wins 25) ids 4 one_game
             = (Ok out, one_game) /\ out <> []).
  { eexists. split; [ vm_compute; reflexivity | discriminate ]. }
  destruct Hrun as (out & Hrun & Hne).
  destruct out as [ | e rest]; [ now elim Hne | ].
  exists (e :: rest), e. split; [ exact Hrun | ]. split; [ now left | ].
  destruct (leaderboard_agrees_with_stats Sort.wins 25 ids 4 one_game
              (e :: rest) e ids 5 unique_player_ids_one_game (Zle_0_pos 25)
              Hrun (or_introl eq_refl))
    as (st & Hst & _ & Hw & _).
  exists st. split; [ exact Hst | exact Hw ].
Defined.

(** X14. Every entry of the leaderboard is also, unchanged, an entry of
    [get_user_players] for the user who owns its player. *)
Theorem leaderboard_entry_is_listed_for_owner
    sort limit uuids now s out e uuids2 now2
    (Hpk : unique_player_ids s) (Hfk : foreign_keys s) (Hlimit : 0 <= limit)
    (Hrun : request (get_leaderboard sort limit) uuids now s = (Ok out, s))
    (He : In e out) :
  exists p out',
    In p (player_profiles s) /\
    PlayerProfile.player_id p = PlayerInfoEntry.player_id e /\
    request (get_user_players (PlayerProfile.user_id p)) uuids2 now2 s
    = (Ok out', s) /\
    In e out'.
Proof.
  destruct (leaderboard_entry_origin _ _ _ _ _ _ _ Hpk Hlimit Hrun He)
    as (p & Hp & ->).
  apply qualifying_In in Hp. destruct Hp as [Hin Hres].
  exists p. rewrite get_user_players_run.
  destruct Hfk as (F1 & _). specialize (F1 p Hin). unfold user_exists in F1.
  destruct (find_user (PlayerProfile.user_id p) s); [ | discriminate ].
  rewrite (user_players_aggregation s _ Hpk), map_map.
  eexists. split; [ exact Hin | ]. split; [ reflexivity | ].
  split; [ reflexivity | ].
  assert (Hb : outer_block (game_results s) p
               = inner_block (game_results s) p).
  { unfold outer_block, inner_block. unfold results_of in Hres.
    now destruct (filter _ (game_results s)). }
  unfold player_row. rewrite <- Hb.
  apply (in_map (fun p => entry_of_row
                  (aggregate (profile_key p,
                              outer_block (game_results s) p)))).
  apply filter_In. split; [ exact Hin | ].
  unfold owned_by. apply String.eqb_refl.
Qed.

(** X15. For a player id without a profile, [get_player_stats] fails with
    404 "Player not found" and changes nothing, also when stored results
    still carry that id. *)
Theorem stats_of_unknown_player pid uuids now s
    (Hunknown : player_exists s pid = false) :
  request (get_player_stats pid) uuids now s
  = (Raise (HTTPException 404 "Player not found"), s).
Proof.
  rewrite get_player_stats_run. unfold player_exists in Hunknown.
  now destruct (find_player pid s).
Qed.

Lemma stats_of_unknown_player_witness :
  player_exists one_game "ghost" = false /\
  request (get_player_stats "ghost") ids 4 one_game
  = (Raise (HTTPException 404 "Player not found"), one_game).
Proof.
  split; [ reflexivity | ].
  exact (stats_of_unknown_player "ghost" ids 4 one_game eq_refl).
Defined.

(** The whole of [get_leaderboard] inside a request, for any limit. *)
Lemma get_leaderboard_run_any sort limit uuids now s :
  unique_player_ids s ->
  request (get_leaderboard sort limit) uuids now s =
  (Ok (map entry_of_row
         (slice_to (sorted_reverse (sort_value sort)
                                   (map (player_row s) (qualifying s)))
                   limit)), s).
Proof.
  intros Hpk. unfold request, get_leaderboard.
  unfold bind, db_query, read_store, ret. simpl.
  now rewrite (leaderboard_aggregation s Hpk).
Qed.

(** X16. [get_leaderboard] itself accepts any integer as limit and cuts the
    sorted list as a Python slice does: limit 0 gives the empty list, and a
    negative limit [-k] gives the sorted list without its last [k]
    entries: the whole leaderboard, which the limit [number of qualifying
    players] returns, is the result followed by the [k] entries dropped
    (all of them when there are fewer). *)
Theorem leaderboard_with_nonpositive_limit sort limit uuids now s
    (Hpk : unique_player_ids s) (Hlimit : limit <= 0) :
  exists out,
    request (get_leaderboard sort limit) uuids now s = (Ok out, s) /\
    StronglySorted (desc (entry_value sort)) out /\
    (limit = 0 -> out = []) /\
    (limit < 0 ->
     List.length out
     = (List.length (qualifying s) - Z.to_nat (- limit))%nat) /\
    exists full,
      request (get_leaderboard sort (Z.of_nat (List.length (qualifying s))))
              uuids now s
      = (Ok full, s) /\
      StronglySorted (desc (entry_value sort)) full /\
      List.length full = List.length (qualifying s) /\
      (forall p, In p (qualifying s) ->
         exists e, In e full /\ summarises s p e) /\
      (limit < 0 ->
       exists dropped,
         full = (out ++ dropped)%list /\
         List.length dropped
         = Nat.min (Z.to_nat (- limit)) (List.length full)).
Proof.
  rewrite (get_leaderboard_run_any sort limit uuids now s Hpk).
  rewrite (get_leaderboard_whole sort uuids now s Hpk).
  eexists. split; [ reflexivity | ].
  destruct (leaderboard_whole_facts sort s Hpk) as (F1 & F2 & _ & F4).
  cbv zeta in F1, F2, F4.
  set (sorted := sorted_reverse (sort_value sort)
                                (map (player_row s) (qualifying s))) in *.
  assert (Hlen : List.length sorted = List.length (qualifying s)).
  { now rewrite length_map in F2. }
  assert (Hs : forall n,
             StronglySorted (desc (entry_value sort))
                            (map entry_of_row (firstn n sorted))).
  { intros n. apply (map_strongly _ (sort_value sort)).
    - intros row. apply entry_value_of_row.
    - apply firstn_strongly. apply sorted_reverse_strongly. }
  unfold slice_to. destruct (0 <=? limit) eqn:E.
  - apply Z.leb_le in E. assert (limit = 0) by lia. subst limit.
    split; [ apply Hs | ]. split; [ reflexivity | ]. split; [ lia | ].
    eexists. split; [ reflexivity | ].
    split; [ exact F1 | ]. split; [ exact F2 | ]. split; [ exact F4 | ].
    intros Hneg. exfalso. lia.
  - apply Z.leb_gt in E.
    split; [ apply Hs | ]. split; [ lia | ]. split.
    + intros _. rewrite length_map, length_firstn, Hlen. lia.
    + eexists. split; [ reflexivity | ].
      split; [ exact F1 | ]. split; [ exact F2 | ]. split; [ exact F4 | ].
      intros _.
      exists (map entry_of_row
                  (skipn (List.length sorted - Z.to_nat (- limit)) sorted)).
      split.
      * now rewrite <- map_app, firstn_skipn.
      * rewrite length_map, length_skipn, length_map, Hlen. lia.
Qed.

Lemma leaderboard_with_nonpositive_limit_witness :
  unique_player_ids one_game /\ -1 <= 0 /\
  exists out,
    request (get_leaderboard Sort.total_points (-1)) ids 4 one_game
    = (Ok out, one_game) /\
    List.length out = 1%nat.
Proof.
  split; [ exact unique_player_ids_one_game | ]. split; [ lia | ].
  destruct (leaderboard_with_nonpositive_limit Sort.total_points (-1) ids 4
              one_game unique_player_ids_one_game)
    as (out & Hrun & _ & _ & Hlen & _); [ lia | ].
  exists out. split; [ exact Hrun | ].
  rewrite Hlen by lia. vm_compute. reflexivity.
Defined.

Lemma one_game_constraints : primary_keys one_game /\ foreign_keys one_game.
Proof.
  unfold one_game, two_players.
  apply create_game_result_keeps_constraints;
    apply create_player_keeps_constraints;
    try apply create_player_keeps_constraints;
    apply empty_store_constraints.
Qed.

Lemma leaderboard_entry_is_listed_for_owner_witness :
  unique_player_ids one_game /\ foreign_keys one_game /\ 0 <= 25 /\
  exists out e p out',
    request (get_leaderboard Sort.wins 25) ids 4 one_game = (Ok out, one_game)
    /\ In e out /\
    In p (player_profiles one_game) /\
    request (get_user_players (PlayerProfile.user_id p)) ids 5 one_game
    = (Ok out', one_game) /\
    In e out'.
Proof.
  split; [ exact unique_player_ids_one_game | ].
  split; [ exact (proj2 one_game_constraints) | ]. split; [ lia | ].
  assert (Hrun : exists out,
             request (get_leaderboard Sort.wins 25) ids 4 one_game
             = (Ok out, one_game) /\ out <> []).
  { eexists. split; [ vm_compute; reflexivity | discriminate ]. }
  destruct Hrun as (out & Hrun & Hne).
  destruct out as [ | e rest]; [ now elim Hne | ].
  destruct (leaderboard_entry_is_listed_for_owner Sort.wins 25 ids 4 one_game
              (e :: rest) e ids 5 unique_player_ids_one_game
              (proj2 one_game_constraints) (Zle_0_pos 25)
              Hrun (or_introl eq_refl))
    as (p & out' & Hp & _ & Hlist & Hin).
  exists (e :: rest), e, p, out'.
  split; [ exact Hrun | ]. split; [ now left | ].
  split; [ exact Hp | ]. split; [ exact Hlist | exact Hin ].
Defined.

(* ================================================================== *)
(** ** tests/test_endpoints.py, [test_post_game_result] *)

Lemma truthy_str_nonempty (x : string) : x <> "" -> truthy x = true.
Proof. destruct x; [ now intros H; elim H | reflexivity ]. Qed.

Lemma truthy_int_nonzero (z : Z) : z <> 0 -> truthy z = true.
Proof.
  intros H. unfold truthy, Truthy_int. apply negb_true_iff.
  now apply Z.eqb_neq.
Qed.

(** X17. The scenario of [test_post_game_result], for any values: a player
    is registered and then a game with one model entry for that player is
    submitted for the same user.  When the generated ids are not taken, the
    player id is not empty, score, turns and farkles are not 0 and won is
    true, the submission is accepted and the player's statistics show one
    game, one win and that score. *)
Theorem register_then_submit
    user_id display_name uuids1 now1 played_at score turns farkles
    uuids2 now2 uuids3 now3 s
    (Hplayer : player_exists s (uuids1 0%nat) = false)
    (Hnoresult : results_of s (uuids1 0%nat) = [])
    (Hpid : uuids1 0%nat <> "")
    (Hscore : score <> 0) (Hturns : turns <> 0) (Hfarkles : farkles <> 0)
    (Hgame : find_game (uuids2 0%nat) s = None)
    (Hresult : find_result (uuids2 1%nat) s = None) :
  let s1 := snd (request (create_player user_id display_name) uuids1 now1 s) in
  let submitted :=
    request (create_game_result user_id played_at
               [Model (GameResultEntry.mk (uuids1 0%nat) score turns farkles
                                          true)])
            uuids2 now2 s1 in
  fst submitted = Ok (uuids2 0%nat) /\
  exists st,
    request (get_player_stats (uuids1 0%nat)) uuids3 now3 (snd submitted)
    = (Ok st, snd submitted) /\
    PlayerStatsResponse.display_name st = display_name /\
    PlayerStatsResponse.games_played st = 1 /\
    PlayerStatsResponse.wins st = 1 /\
    PlayerStatsResponse.total_points st = score /\
    PlayerStatsResponse.high_score st = score.
Proof.
  cbv zeta. rewrite create_player_run. cbv zeta.
  unfold player_exists in Hplayer.
  destruct (find_player (uuids1 0%nat) s) eqn:E; [ discriminate | ].
  cbn [snd].
  set (s0 := match find_user user_id s with
             | Some _ => s
             | None => mkStore (users s ++ [User.mk user_id "anonymous" now1])%list
                               (player_profiles s) (games s) (game_results s)
             end).
  assert (H0 : player_profiles s0 = player_profiles s /\
               games s0 = games s /\ game_results s0 = game_results s /\
               user_exists s0 user_id = true).
  { unfold s0, user_exists. destruct (find_user user_id s) eqn:Eu.
    - now rewrite Eu.
    - repeat split. unfold find_user. simpl. rewrite find_app.
      fold (find_user user_id s). rewrite Eu. simpl.
      now rewrite String.eqb_refl. }
  destruct H0 as (Hps & Hgs & Hrs & Hu).
  set (new := PlayerProfile.mk (uuids1 0%nat) user_id display_name now1).
  set (s1 := mkStore (users s0) (player_profiles s0 ++ [new])%list (games s0)
                     (game_results s0)).
  assert (Hfind : find_player (uuids1 0%nat) s1 = Some new).
  { unfold find_player, s1. simpl. rewrite find_app, Hps.
    fold (find_player (uuids1 0%nat) s). rewrite E. simpl.
    now rewrite String.eqb_refl. }
  set (item := Model (GameResultEntry.mk (uuids1 0%nat) score turns farkles
                                         true)).
  assert (Hacc := create_game_result_accepts user_id played_at [item]
                    uuids2 now2 s1).
  rewrite Hacc; clear Hacc.
  - split; [ reflexivity | ]. cbn [snd fst].
    rewrite get_player_stats_run.
    match goal with |- context [find_player _ ?st] =>
      assert (Hf : find_player (uuids1 0%nat) st = Some new) by exact Hfind
    end.
    rewrite Hf. eexists. split; [ reflexivity | ].
    assert (Hres : forall us ps gs,
               results_of (mkStore us ps gs
                             (game_results s1
                              ++ result_rows uuids2 1 (uuids2 0%nat) [item])%list)
                          (uuids1 0%nat)
               = [row_of_entry (uuids2 1%nat) (uuids2 0%nat)
                               (item_entry item)]).
    { intros. unfold results_of. simpl. rewrite filter_app, Hrs.
      fold (results_of s (uuids1 0%nat)). rewrite Hnoresult. simpl.
      unfold player_is. simpl. now rewrite String.eqb_refl. }
    cbn -[py_or sql_max results_of result_rows games_of wins_of points_of].
    unfold games_of, wins_of, points_of. rewrite !Hres.
    repeat split; try reflexivity.
    + simpl. lia.
    + rewrite py_or_sql_max. reflexivity.
  - unfold user_exists, find_user, s1. simpl. exact Hu.
  - simpl. rewrite (truthy_str_nonempty _ Hpid), (truthy_int_nonzero _ Hscore),
      (truthy_int_nonzero _ Hturns), (truthy_int_nonzero _ Hfarkles).
    reflexivity.
  - unfold first_unknown, player_exists. simpl. now rewrite Hfind.
  - unfold find_game, s1. simpl. rewrite Hgs. exact Hgame.
  - simpl. repeat constructor. simpl. tauto.
  - intros r [<- | []]. unfold find_result, s1. simpl. rewrite Hrs.
    exact Hresult.
Qed.

Lemma register_then_submit_witness :
  player_exists empty_store "p1" = false /\
  fst (request (create_game_result "test-user-2" None
                  [Model (GameResultEntry.mk "p1" 10000 9 2 true)])
               ids 2
               (snd (request (create_player "test-user-2" "Player1")
                             (fun _ => "p1") 1 empty_store)))
  = Ok "id0".
Proof.
  split; [ reflexivity | ].
  refine (proj1 (register_then_submit "test-user-2" "Player1" (fun _ => "p1")
                   1 None 10000 9 2 ids 2 ids 3 empty_store
                   eq_refl eq_refl _ _ _ _ eq_refl eq_refl));
    discriminate.
Defined.

(* ================================================================== *)
(** ** scripts/seed_dev_data.py *)

(** The whole of [seed] inside a request: a single commit of six rows. *)
Lemma seed_run uuids now s :
  request seed uuids now s =
  match
    flush now
      [NewUser (uuids 0%nat) "anonymous";
       NewPlayerProfile (uuids 1%nat) (uuids 0%nat) "Alice";
       NewPlayerProfile (uuids 2%nat) (uuids 0%nat) "Bob";
       NewGame (Game.mk (uuids 3%nat) (uuids 0%nat) now);
       NewGameResult (GameResult.mk (uuids 4%nat) (uuids 3%nat)
                                    (Some (uuids 1%nat)) 9800 8 1 true);
       NewGameResult (GameResult.mk (uuids 5%nat) (uuids 3%nat)
                                    (Some (uuids 2%nat)) 8700 9 3 false)]
      s
  with
  | Some s' => (Ok tt, s')
  | None => (Raise IntegrityError, s)
  end.
Proof.
  unfold request. cbv -[flush String.append].
  match goal with |- context [flush ?a ?b ?c] => destruct (flush a b c) end;
    reflexivity.
Qed.

Lemma find_snoc_other {A} (f : A -> string) (k : string) (l : list A) (x : A) :
  f x <> k ->
  find (fun a => String.eqb (f a) k) (l ++ [x])
  = find (fun a => String.eqb (f a) k) l.
Proof.
  intros H. rewrite find_app. destruct (find _ l); [ reflexivity | ].
  simpl. apply String.eqb_neq in H. now rewrite H.
Qed.

(** X18. [seed] commits once: it either persists all of its rows or none.
    With ids that are not taken and distinct where they share a table, it
    appends one anonymous user, the profiles Alice and Bob of that user,
    one game and the results 9800 (won) for Alice and 8700 (lost) for Bob;
    otherwise it fails with [IntegrityError] and leaves the store as it
    was. *)
Theorem seed_all_or_nothing uuids now s :
  (find_user (uuids 0%nat) s = None ->
   find_player (uuids 1%nat) s = None ->
   find_player (uuids 2%nat) s = None ->
   uuids 1%nat <> uuids 2%nat ->
   find_game (uuids 3%nat) s = None ->
   find_result (uuids 4%nat) s = None ->
   find_result (uuids 5%nat) s = None ->
   uuids 4%nat <> uuids 5%nat ->
   request seed uuids now s =
   (Ok tt,
    mkStore
      (users s ++ [User.mk (uuids 0%nat) "anonymous" now])%list
      (player_profiles s ++
       [PlayerProfile.mk (uuids 1%nat) (uuids 0%nat) "Alice" now;
        PlayerProfile.mk (uuids 2%nat) (uuids 0%nat) "Bob" now])%list
      (games s ++ [Game.mk (uuids 3%nat) (uuids 0%nat) now])%list
      (game_results s ++
       [GameResult.mk (uuids 4%nat) (uuids 3%nat) (Some (uuids 1%nat))
                      9800 8 1 true;
        GameResult.mk (uuids 5%nat) (uuids 3%nat) (Some (uuids 2%nat))
                      8700 9 3 false])%list)) /\
  (forall e s', request seed uuids now s = (Raise e, s') ->
                e = IntegrityError /\ s' = s).
Proof.
  rewrite seed_run. split.
  - intros Hu Ha Hb Hab Hg H4 H5 H45.
    unfold find_user, find_player, find_game, find_result in *.
    cbn [flush insert find_user users player_profiles games game_results
         Game.game_id GameResult.result_id].
    unfold find_user, find_player, find_game, find_result.
    cbn [users player_profiles games game_results].
    rewrite Hu.
    cbn [users player_profiles games game_results]. rewrite Ha.
    cbn [users player_profiles games game_results].
    rewrite (find_snoc_other PlayerProfile.player_id) by exact Hab.
    rewrite Hb.
    cbn [users player_profiles games game_results]. rewrite Hg.
    cbn [users player_profiles games game_results]. rewrite H4.
    cbn [users player_profiles games game_results].
    rewrite (find_snoc_other GameResult.result_id) by exact H45.
    rewrite H5.
    cbn [users player_profiles games game_results].
    now rewrite <- !app_assoc.
  - intros e s'.
    match goal with |- context [flush ?a ?b ?c] => destruct (flush a b c) end;
      intros H; [ discriminate | ].
    injection H as <- <-. now split.
Qed.

Lemma seed_all_or_nothing_witness :
  request seed ids 7 empty_store =
  (Ok tt,
   mkStore [User.mk "id0" "anonymous" 7]
           [PlayerProfile.mk "id1" "id0" "Alice" 7;
            PlayerProfile.mk "id2" "id0" "Bob" 7]
           [Game.mk "id3" "id0" 7]
           [GameResult.mk "id4" "id3" (Some "id1") 9800 8 1 true;
            GameResult.mk "id5" "id3" (Some "id2") 8700 9 3 false]).
Proof.
  refine (proj1 (seed_all_or_nothing ids 7 empty_store)
                eq_refl eq_refl eq_refl _ eq_refl eq_refl eq_refl _);
    discriminate.
Defined.

(* ================================================================== *)
(** ** More compositions *)

(** X19. Two registrations for a user id that had no [User]: exactly one
    user is created, by the first call, and, the two generated ids being
    new and different, both calls succeed and the two profiles are appended
    in the order of the calls. *)
Theorem two_registrations_one_user
    user_id name1 name2 uuids1 now1 uuids2 now2 s
    (Huser : user_exists s user_id = false)
    (Hfresh1 : player_exists s (uuids1 0%nat) = false)
    (Hfresh2 : player_exists s (uuids2 0%nat) = false)
    (Hdiff : uuids1 0%nat <> uuids2 0%nat) :
  let first := request (create_player user_id name1) uuids1 now1 s in
  let second := request (create_player user_id name2) uuids2 now2 (snd first) in
  fst first = Ok (uuids1 0%nat) /\
  fst second = Ok (uuids2 0%nat) /\
  users (snd second)
  = (users s ++ [User.mk user_id "anonymous" now1])%list /\
  player_profiles (snd second)
  = (player_profiles s ++
     [PlayerProfile.mk (uuids1 0%nat) user_id name1 now1;
      PlayerProfile.mk (uuids2 0%nat) user_id name2 now2])%list.
Proof.
  cbv zeta. rewrite (create_player_run user_id name1). cbv zeta.
  unfold user_exists in Huser. unfold player_exists in Hfresh1, Hfresh2.
  destruct (find_user user_id s) eqn:Eu; [ discriminate | ].
  destruct (find_player (uuids1 0%nat) s) eqn:E1; [ discriminate | ].
  destruct (find_player (uuids2 0%nat) s) eqn:E2; [ discriminate | ].
  cbn [fst snd]. rewrite create_player_run. cbv zeta.
  assert (Hu : forall ps gs rs,
             find_user user_id
               (mkStore (users s ++ [User.mk user_id "anonymous" now1])%list
                        ps gs rs)
             = Some (User.mk user_id "anonymous" now1)).
  { intros. unfold find_user. simpl. rewrite find_app.
    fold (find_user user_id s). rewrite Eu. simpl.
    now rewrite String.eqb_refl. }
  assert (Hp : forall us gs rs,
             find_player (uuids2 0%nat)
               (mkStore us
                  (player_profiles s ++
                   [PlayerProfile.mk (uuids1 0%nat) user_id name1 now1])%list
                  gs rs)
             = None).
  { intros. unfold find_player. simpl.
    rewrite (find_snoc_other PlayerProfile.player_id) by exact Hdiff.
    exact E2. }
  cbn [users player_profiles games game_results].
  rewrite Hu, Hp. cbn [fst snd users player_profiles].
  repeat split. now rewrite <- app_assoc.
Qed.

Lemma two_registrations_one_user_witness :
  user_exists empty_store "u1" = false /\
  snd (request (create_player "u1" "Bob") (fun _ => "pB") 2
         (snd (request (create_player "u1" "Alice") (fun _ => "pA") 1
                       empty_store)))
  = mkStore [User.mk "u1" "anonymous" 1]
            [PlayerProfile.mk "pA" "u1" "Alice" 1;
             PlayerProfile.mk "pB" "u1" "Bob" 2] [] [].
Proof.
  split; [ reflexivity | ].
  assert (Hd : "pA" <> "pB") by discriminate.
  pose proof (two_registrations_one_user "u1" "Alice" "Bob" (fun _ => "pA") 1
                (fun _ => "pB") 2 empty_store eq_refl eq_refl eq_refl Hd)
    as H.
  cbv zeta in H. destruct H as (_ & _ & _ & _). reflexivity.
Defined.

Lemma inner_join_snoc ps p rs :
  filter (player_is (PlayerProfile.player_id p)) rs = [] ->
  inner_join (ps ++ [p]) rs = inner_join ps rs.
Proof.
  intros H. unfold inner_join. rewrite flat_map_app. simpl.
  rewrite H. simpl. now rewrite !app_nil_r.
Qed.

(** X20. Registering a player never changes the leaderboard: from a store
    whose results all reference existing players, the leaderboard after
    any call of [create_player], accepted or refused, is the leaderboard
    before it, for every sort key and limit. *)
Theorem registration_leaves_leaderboard
    user_id display_name uuids now s sort limit uuids1 now1 uuids2 now2
    (Hfk : foreign_keys s) :
  fst (request (get_leaderboard sort limit) uuids2 now2
         (snd (request (create_player user_id display_name) uuids now s)))
  = fst (request (get_leaderboard sort limit) uuids1 now1 s).
Proof.
  destruct (create_player_tables user_id display_name uuids now s)
    as (_ & Hres & _ & Hnew).
  assert (Hjoin : inner_join
                    (player_profiles
                       (snd (request (create_player user_id display_name)
                                     uuids now s)))
                    (game_results s)
                  = inner_join (player_profiles s) (game_results s)).
  { destruct (find_player (uuids 0%nat) s) eqn:E.
    - rewrite create_player_run. cbv zeta. rewrite E. cbn [snd].
      now destruct (find_user user_id s).
    - rewrite (Hnew eq_refl).
      apply inner_join_snoc. simpl.
      apply (results_of_unknown_player s _ Hfk).
      unfold player_exists. now rewrite E. }
  revert Hres Hjoin.
  generalize (snd (request (create_player user_id display_name) uuids now s)).
  intros s1 Hres Hjoin.
  unfold request, get_leaderboard, bind, db_query, read_store, ret.
  cbn -[inner_join group_by sorted_reverse slice_to aggregate entry_of_row].
  now rewrite Hres, Hjoin.
Qed.

Lemma registration_leaves_leaderboard_witness :
  foreign_keys one_game /\
  fst (request (get_leaderboard Sort.avg_score 25) ids 6 with_idle_player)
  = fst (request (get_leaderboard Sort.avg_score 25) ids 5 one_game).
Proof.
  split; [ exact (proj2 one_game_constraints) | ].
  exact (registration_leaves_leaderboard "u1" "Carl" (fun _ => "pC") 4
           one_game Sort.avg_score 25 ids 5 ids 6
           (proj2 one_game_constraints)).
Defined.

(** X21. Round trip of a submission into the leaderboard.  After an accepted
    submission, with unique player ids and a limit not below the number of
    profiles, every player named by one of its items has an entry in the
    leaderboard. *)
Theorem submitted_players_are_ranked
    user_id played_at results uuids now s gid s' res sort limit uuids2 now2
    (Hpk : unique_player_ids s)
    (Hrun : request (create_game_result user_id played_at results) uuids now s
            = (Ok gid, s'))
    (Hres : In res results)
    (Hlimit : Z.of_nat (List.length (player_profiles s)) <= limit) :
  exists out e,
    request (get_leaderboard sort limit) uuids2 now2 s' = (Ok out, s') /\
    In e out /\
    PlayerInfoEntry.player_id e = item_player_id res.
Proof.
  apply create_game_result_accepted in Hrun.
  destruct Hrun as (_ & _ & _ & Hknown & ->).
  pose proof (first_unknown_none s results Hknown res Hres) as Hex.
  unfold player_exists in Hex.
  destruct (find_player (item_player_id res) s) as [p | ] eqn:Hp;
    [ clear Hex | discriminate ].
  pose proof (find_player_id _ _ _ Hp) as Hid.
  pose proof (find_player_In _ _ _ Hp) as Hin.
  set (s' := mkStore _ _ _ _).
  assert (Hpk' : unique_player_ids s') by exact Hpk.
  assert (Hl : 0 <= limit) by lia.
  rewrite (get_leaderboard_run sort limit uuids2 now2 s' Hpk' Hl).
  assert (Hq : In p (qualifying s')).
  { apply qualifying_In. split; [ exact Hin | ].
    unfold s'. rewrite results_of_after_submission. rewrite Hid.
    intros Hnil. apply app_eq_nil in Hnil. destruct Hnil as [_ Hnil].
    apply (f_equal (map GameResult.score)) in Hnil.
    rewrite (rows_of_player GameResult.score GameResultEntry.score)
      in Hnil by reflexivity.
    unfold items_of in Hnil.
    assert (Hf : In res (filter (fun r => String.eqb (item_player_id res)
                                            (item_player_id r)) results)).
    { apply filter_In. split; [ exact Hres | apply String.eqb_refl ]. }
    destruct (filter _ results); [ destruct Hf | discriminate ]. }
  eexists. exists (entry_of_row (player_row s' p)).
  split; [ reflexivity | ]. split; [ | exact Hid ].
  apply in_map. rewrite firstn_all2.
  - apply (Permutation_in _ (Permutation_sym (sorted_reverse_perm _ _))).
    now apply in_map.
  - rewrite (Permutation_length (sorted_reverse_perm _ _)), length_map.
    unfold qualifying.
    pose proof (filter_length_le (has_results s') (player_profiles s')) as Hle.
    change (player_profiles s') with (player_profiles s) in *. lia.
Qed.

Lemma submitted_players_are_ranked_witness :
  unique_player_ids two_players /\
  exists out e,
    request (get_leaderboard Sort.total_points 25) ids 4 one_game
    = (Ok out, one_game) /\
    In e out /\
    PlayerInfoEntry.player_id e = "pB".
Proof.
  assert (Hpk : unique_player_ids two_players).
  { vm_compute. repeat constructor; simpl; intuition discriminate. }
  split; [ exact Hpk | ].
  apply (submitted_players_are_ranked "u1" None
           [Dict (entry "pA" 9800 true); Dict (entry "pB" 8700 false)]
           ids 3 two_players "id0" one_game (Dict (entry "pB" 8700 false))
           Sort.total_points 25 ids 4 Hpk eq_refl).
  - right. now left.
  - vm_compute. discriminate.
Defined.
